(** * MultiCompass: a shallow embedding of the compass driver

    The development follows the three layers of the library:
    the register transport ([writeByte], [readByte]), the compass model
    ([setCalibration], [getCalibration], [scaleData], [calculateHeading])
    and the HMC5883L device profile (bit fields of the configuration
    registers and the running calibration).

    Conventions of the embedding.
    - The C [float] fields are read as real numbers: arithmetic is exact,
      and there is neither rounding nor NaN.  A division whose divisor is
      zero has no real value and is reported as [None].  The last steps of
      [calculateHeading], where the outcome hangs on the rounding, are
      given a second time in binary32, bit for bit.
    - Integers are [Z] with the width of their C type written out:
      [uint8_t] values are reduced modulo 256, [millis()] returns an
      [unsigned long] of 32 bits, [lastCalibration] is a [long long].
    - [millis()] reads a hardware clock; it is an oracle that is consulted
      once per call and may return a different reading each time.
    - The two-wire bus is a table of register files, one per bus address. *)

From Stdlib Require Import Reals ZArith List Bool Lia Lra.
From Stdlib Require Import Floats.SpecFloat.
Import ListNotations.

(** ** Data model (MultiCompass.h) *)

Module CompassData.
Record t : Type := mk {
  rawX : R;
  rawY : R;
  rawZ : R;
  scaledX : R;
  scaledY : R;
  scaledZ : R;
  heading : R
}.
End CompassData.

Module CompassSetting.
Record t : Type := mk {
  minX : R;
  minY : R;
  minZ : R;
  maxX : R;
  maxY : R;
  maxZ : R;
  heading : R;
  lastCalibration : Z
}.

Definition set_minX (v : R) (s : t) : t :=
  mk v (minY s) (minZ s) (maxX s) (maxY s) (maxZ s) (heading s) (lastCalibration s).
Definition set_minY (v : R) (s : t) : t :=
  mk (minX s) v (minZ s) (maxX s) (maxY s) (maxZ s) (heading s) (lastCalibration s).
Definition set_minZ (v : R) (s : t) : t :=
  mk (minX s) (minY s) v (maxX s) (maxY s) (maxZ s) (heading s) (lastCalibration s).
Definition set_maxX (v : R) (s : t) : t :=
  mk (minX s) (minY s) (minZ s) v (maxY s) (maxZ s) (heading s) (lastCalibration s).
Definition set_maxY (v : R) (s : t) : t :=
  mk (minX s) (minY s) (minZ s) (maxX s) v (maxZ s) (heading s) (lastCalibration s).
Definition set_maxZ (v : R) (s : t) : t :=
  mk (minX s) (minY s) (minZ s) (maxX s) (maxY s) v (heading s) (lastCalibration s).
Definition set_heading (v : R) (s : t) : t :=
  mk (minX s) (minY s) (minZ s) (maxX s) (maxY s) (maxZ s) v (lastCalibration s).
Definition set_lastCalibration (v : Z) (s : t) : t :=
  mk (minX s) (minY s) (minZ s) (maxX s) (maxY s) (maxZ s) (heading s) v.
End CompassSetting.

(** The bus: for each 7-bit address, the register file of the peripheral
    that answers there.  Registers hold bytes. *)
Definition TwoWire : Type := Z -> Z -> Z.

(** class MultiCompass: the calibration settings and the bus address.
    The [TwoWire *mywire] member is the bus that every transport
    operation receives and returns. *)
Record MultiCompass : Type := mkMultiCompass {
  settings : CompassSetting.t;
  adress : Z
}.

(** class MultiCompassHMC5883L : public MultiCompass *)
Record MultiCompassHMC5883L : Type := mkHMC5883L {
  compass : MultiCompass;
  calibrationPeriod : Z
}.

(** ** Machine integers *)

Definition uint8 (z : Z) : Z := (z mod 256)%Z.
Definition uint32 (z : Z) : Z := (z mod 2 ^ 32)%Z.
Definition int64 (z : Z) : Z := ((z + 2 ^ 63) mod 2 ^ 64 - 2 ^ 63)%Z.

(** ** The clock

    [millis()] returns the number of milliseconds since start-up as an
    [unsigned long].  The oracle gives the raw counter at the n-th
    consultation; reading it consumes one consultation. *)
Definition Clock : Type := nat -> Z.

Definition millis (clk : Clock) : Z * Clock :=
  (uint32 (clk O), fun n => clk (S n)).

(** ** Compass model (MultiCompass.cpp) *)

(** MultiCompass::MultiCompass.  The constructor assigns the declination
    and the six sentinel bounds; [lastCalibration] and [adress] keep
    whatever the storage held, which the two arguments stand for. *)
Definition MultiCompass_new (ts0 adress0 : Z) : MultiCompass :=
  mkMultiCompass
    (CompassSetting.mk 100000 100000 100000 (-100000) (-100000) (-100000) 0 ts0)
    adress0.

Definition with_settings (s : CompassSetting.t) (c : MultiCompass) : MultiCompass :=
  mkMultiCompass s (adress c).

(** MultiCompass::setDeclinationAngle *)
Definition setDeclinationAngle (declinationAngle : R) (c : MultiCompass) : MultiCompass :=
  with_settings (CompassSetting.set_heading declinationAngle (settings c)) c.

(** MultiCompass::setCalibration *)
Definition setCalibration (setting : CompassSetting.t) (c : MultiCompass) : MultiCompass :=
  with_settings
    (CompassSetting.mk
       (CompassSetting.minX setting) (CompassSetting.minY setting)
       (CompassSetting.minZ setting) (CompassSetting.maxX setting)
       (CompassSetting.maxY setting) (CompassSetting.maxZ setting)
       (CompassSetting.heading setting) 0)
    c.

(** getCalibration.  The definition in MultiCompass.cpp is a free
    function, not a member of [MultiCompass]: inside it [settings] names
    the pointer parameter, so it never sees a compass.  Its body is
    [memcpy(settings, &settings, sizeof(settings))]: the source is the
    storage of the pointer itself and the length is the width of a
    pointer.  Memory is a list of bytes; the pointer is stored least
    significant byte first. *)
Definition memcpy (dst src : list Z) (n : nat) : list Z :=
  firstn n src ++ skipn n dst.

Fixpoint pointer_bytes (width : nat) (p : Z) : list Z :=
  match width with
  | O => []
  | S w => uint8 p :: pointer_bytes w (Z.shiftr p 8)
  end.

Definition getCalibration (width : nat) (settings_ptr : Z) (pointee : list Z) : list Z :=
  memcpy pointee (pointer_bytes width settings_ptr) width.

(** Division of two [float]s; [None] when the divisor is zero. *)
Definition fdiv (a b : R) : option R :=
  if Req_dec_T b 0 then None else Some (a / b)%R.

(** The divisor of each axis in [scaleData]. *)
Definition divisorX (s : CompassSetting.t) : R :=
  ((Rabs (CompassSetting.maxX s) + Rabs (CompassSetting.minX s)) / 2)%R.
Definition divisorY (s : CompassSetting.t) : R :=
  ((Rabs (CompassSetting.maxY s) + Rabs (CompassSetting.minY s)) / 2)%R.
Definition divisorZ (s : CompassSetting.t) : R :=
  ((Rabs (CompassSetting.maxZ s) + Rabs (CompassSetting.minZ s)) / 2)%R.

(** MultiCompass::scaleData *)
Definition scaleData (c : MultiCompass) (data : CompassData.t) : option CompassData.t :=
  let s := settings c in
  let sx := (CompassData.rawX data - (CompassSetting.maxX s + CompassSetting.minX s) / 2)%R in
  let sy := (CompassData.rawY data - (CompassSetting.maxY s + CompassSetting.minY s) / 2)%R in
  let sz := (CompassData.rawZ data - (CompassSetting.maxZ s + CompassSetting.minZ s) / 2)%R in
  match fdiv sx (divisorX s), fdiv sy (divisorY s), fdiv sz (divisorZ s) with
  | Some x, Some y, Some z =>
      Some (CompassData.mk (CompassData.rawX data) (CompassData.rawY data)
              (CompassData.rawZ data) x y z (CompassData.heading data))
  | _, _, _ => None
  end.

(** [atan2f] of <math.h>: the angle of the point (x, y) in (-PI, PI]. *)
Definition atan2 (y x : R) : R :=
  if Rlt_dec 0 x then atan (y / x)
  else if Rlt_dec x 0 then
    (if Rle_dec 0 y then atan (y / x) + PI else atan (y / x) - PI)%R
  else if Rlt_dec 0 y then (PI / 2)%R
  else if Rlt_dec y 0 then (- (PI / 2))%R
  else 0%R.

(** The two arguments ([axis1], [axis2]) that [calculateHeading] passes to
    [atan2f]: the first nonzero weight, tried in the order x, y, z, selects
    the pair of scaled axes and multiplies both. *)
Definition heading_axes (data : CompassData.t) (x y z : Z) : R * R :=
  if negb (x =? 0)%Z then
    (CompassData.scaledY data * IZR x, CompassData.scaledZ data * IZR x)%R
  else if negb (y =? 0)%Z then
    (CompassData.scaledX data * IZR y, CompassData.scaledZ data * IZR y)%R
  else if negb (z =? 0)%Z then
    (CompassData.scaledX data * IZR z, CompassData.scaledY data * IZR z)%R
  else (0, 0)%R.

(** The heading before it is normalised: [atan2f(axis2, axis1)] plus the
    declination held in [settings.heading]. *)
Definition heading_sum (c : MultiCompass) (data : CompassData.t) (x y z : Z) : R :=
  let (axis1, axis2) := heading_axes data x y z in
  (atan2 axis2 axis1 + CompassSetting.heading (settings c))%R.

(** MultiCompass::calculateHeading *)
Definition calculateHeading (c : MultiCompass) (data : CompassData.t) (x y z : Z)
  : CompassData.t :=
  let h := heading_sum c data x y z in
  let h' :=
    if Rlt_dec h 0 then (h + 2 * PI)%R
    else if Rgt_dec h (2 * PI) then (h - 2 * PI)%R
    else h in
  CompassData.mk (CompassData.rawX data) (CompassData.rawY data) (CompassData.rawZ data)
    (CompassData.scaledX data) (CompassData.scaledY data) (CompassData.scaledZ data) h'.

(** ** Register transport *)

Definition poke (wire : TwoWire) (addr reg value : Z) : TwoWire :=
  fun a r => if ((a =? addr) && (r =? reg))%Z then value else wire a r.

(** MultiCompass::writeByte *)
Definition writeByte (c : MultiCompass) (reg value : Z) (wire : TwoWire) : TwoWire :=
  poke wire (adress c) (uint8 reg) (uint8 value).

(** MultiCompass::readByte *)
Definition readByte (c : MultiCompass) (reg : Z) (wire : TwoWire) : Z :=
  uint8 (wire (adress c) (uint8 reg)).

(** ** Device profile (MultiCompassHMC5883L.h, MultiCompass.cpp) *)

Definition HMC5883L_ADDRESS : Z := 0x1E.
Definition HMC5883L_REGISTER_CONFIG_A : Z := 0x00.
Definition HMC5883L_REGISTER_CONFIG_B : Z := 0x01.
Definition HMC5883L_REGISTER_MODE : Z := 0x02.

Inductive HMC5883L_Samples : Type :=
| HMC5883L_SAMPLES_8
| HMC5883L_SAMPLES_4
| HMC5883L_SAMPLES_2
| HMC5883L_SAMPLES_1.

Inductive HMC5883L_OutputRate : Type :=
| HMC5883L_OUTPUTRATE_75HZ
| HMC5883L_OUTPUTRATE_30HZ
| HMC5883L_OUTPUTRATE_15HZ
| HMC5883L_OUTPUTRATE_7_5HZ
| HMC5883L_OUTPUTRATE_3HZ
| HMC5883L_OUTPUTRATE_1_5HZ
| HMC5883L_OUTPUTRATE_0_75_HZ.

Inductive HMC5883L_FieldRange : Type :=
| HMC5883L_FIELDRANGE_8_1GA
| HMC5883L_FIELDRANGE_5_6GA
| HMC5883L_FIELDRANGE_4_7GA
| HMC5883L_FIELDRANGE_4GA
| HMC5883L_FIELDRANGE_2_5GA
| HMC5883L_FIELDRANGE_1_9GA
| HMC5883L_FIELDRANGE_1_3GA
| HMC5883L_FIELDRANGE_0_88GA.

Inductive HMC5883L_Mode : Type :=
| HMC5883L_MODE_IDLE
| HMC5883_MODE_SINGLE
| HMC5883L_MODE_CONTINOUS.

(** The integer value of each enumerator. *)
Definition Samples_value (s : HMC5883L_Samples) : Z :=
  match s with
  | HMC5883L_SAMPLES_8 => 3 (* 0b11 *)
  | HMC5883L_SAMPLES_4 => 2 (* 0b10 *)
  | HMC5883L_SAMPLES_2 => 1 (* 0b01 *)
  | HMC5883L_SAMPLES_1 => 0 (* 0b00 *)
  end.

Definition OutputRate_value (r : HMC5883L_OutputRate) : Z :=
  match r with
  | HMC5883L_OUTPUTRATE_75HZ => 6 (* 0b110 *)
  | HMC5883L_OUTPUTRATE_30HZ => 5 (* 0b101 *)
  | HMC5883L_OUTPUTRATE_15HZ => 4 (* 0b100 *)
  | HMC5883L_OUTPUTRATE_7_5HZ => 3 (* 0b011 *)
  | HMC5883L_OUTPUTRATE_3HZ => 2 (* 0b010 *)
  | HMC5883L_OUTPUTRATE_1_5HZ => 1 (* 0b001 *)
  | HMC5883L_OUTPUTRATE_0_75_HZ => 0 (* 0b000 *)
  end.

Definition FieldRange_value (r : HMC5883L_FieldRange) : Z :=
  match r with
  | HMC5883L_FIELDRANGE_8_1GA => 7 (* 0b111 *)
  | HMC5883L_FIELDRANGE_5_6GA => 6 (* 0b110 *)
  | HMC5883L_FIELDRANGE_4_7GA => 5 (* 0b101 *)
  | HMC5883L_FIELDRANGE_4GA => 4 (* 0b100 *)
  | HMC5883L_FIELDRANGE_2_5GA => 3 (* 0b011 *)
  | HMC5883L_FIELDRANGE_1_9GA => 2 (* 0b010 *)
  | HMC5883L_FIELDRANGE_1_3GA => 1 (* 0b001 *)
  | HMC5883L_FIELDRANGE_0_88GA => 0 (* 0b000 *)
  end.

Definition Mode_value (m : HMC5883L_Mode) : Z :=
  match m with
  | HMC5883L_MODE_IDLE => 2 (* 0b10 *)
  | HMC5883_MODE_SINGLE => 1 (* 0b01 *)
  | HMC5883L_MODE_CONTINOUS => 0 (* 0b00 *)
  end.

(** MultiCompassHMC5883L::MultiCompassHMC5883L *)
Definition MultiCompassHMC5883L_new (ts0 adress0 : Z) : MultiCompassHMC5883L :=
  mkHMC5883L
    (mkMultiCompass (settings (MultiCompass_new ts0 adress0))
                    (uint8 (HMC5883L_ADDRESS + 1)))
    1000.

(** MultiCompassHMC5883L::setMode *)
Definition setMode (h : MultiCompassHMC5883L) (mode : HMC5883L_Mode) (wire : TwoWire)
  : TwoWire :=
  let value := readByte (compass h) HMC5883L_REGISTER_MODE wire in
  let value := uint8 (Z.land value 252 (* 0b11111100 *)) in
  let value := uint8 (Z.lor value (Mode_value mode)) in
  writeByte (compass h) HMC5883L_REGISTER_MODE value wire.

(** MultiCompassHMC5883L::getMode *)
Definition getMode (h : MultiCompassHMC5883L) (wire : TwoWire) : Z :=
  let value := readByte (compass h) HMC5883L_REGISTER_MODE wire in
  uint8 (Z.land value 3 (* 0b00000011 *)).

(** MultiCompassHMC5883L::setFieldRange *)
Definition setFieldRange (h : MultiCompassHMC5883L) (range : HMC5883L_FieldRange)
  (wire : TwoWire) : TwoWire :=
  writeByte (compass h) HMC5883L_REGISTER_CONFIG_B
    (Z.shiftl (FieldRange_value range) 5) wire.

(** MultiCompassHMC5883L::getFieldRange *)
Definition getFieldRange (h : MultiCompassHMC5883L) (wire : TwoWire) : Z :=
  let value := readByte (compass h) HMC5883L_REGISTER_CONFIG_B wire in
  Z.land (Z.shiftr value 5) 3 (* 0b00000011 *).

(** MultiCompassHMC5883L::setOutputRate *)
Definition setOutputRate (h : MultiCompassHMC5883L) (samplerate : HMC5883L_OutputRate)
  (wire : TwoWire) : TwoWire :=
  let value := readByte (compass h) HMC5883L_REGISTER_CONFIG_A wire in
  let value := uint8 (Z.land value 227 (* 0b11100011 *)) in
  let value := uint8 (Z.lor value (Z.shiftl (OutputRate_value samplerate) 2)) in
  writeByte (compass h) HMC5883L_REGISTER_CONFIG_A value wire.

(** MultiCompassHMC5883L::getOutputRate *)
Definition getOutputRate (h : MultiCompassHMC5883L) (wire : TwoWire) : Z :=
  let value := readByte (compass h) HMC5883L_REGISTER_CONFIG_A wire in
  let value := uint8 (Z.land value 28 (* 0b00011100 *)) in
  uint8 (Z.shiftr value 2).

(** MultiCompassHMC5883L::setAveragedSamples *)
Definition setAveragedSamples (h : MultiCompassHMC5883L) (samples : HMC5883L_Samples)
  (wire : TwoWire) : TwoWire :=
  let value := readByte (compass h) HMC5883L_REGISTER_CONFIG_A wire in
  let value := uint8 (Z.land value 159 (* 0b10011111 *)) in
  let value := uint8 (Z.lor value (Z.shiftl (Samples_value samples) 5)) in
  writeByte (compass h) HMC5883L_REGISTER_CONFIG_A value wire.

(** One guarded update of [calibration]: store a bound, then stamp
    [lastCalibration] with a fresh [millis()]. *)
Definition stamp (upd : CompassSetting.t -> CompassSetting.t)
  (st : CompassSetting.t * Clock) : CompassSetting.t * Clock :=
  let (t, clk') := millis (snd st) in
  (CompassSetting.set_lastCalibration t (upd (fst st)), clk').

(** The six guarded updates of [calibration], one per [if] statement. *)
Definition update_minX (data : CompassData.t) (st : CompassSetting.t * Clock)
  : CompassSetting.t * Clock :=
  if Rlt_dec (CompassData.rawX data) (CompassSetting.minX (fst st))
  then stamp (CompassSetting.set_minX (CompassData.rawX data)) st else st.

Definition update_minY (data : CompassData.t) (st : CompassSetting.t * Clock)
  : CompassSetting.t * Clock :=
  if Rlt_dec (CompassData.rawY data) (CompassSetting.minY (fst st))
  then stamp (CompassSetting.set_minY (CompassData.rawY data)) st else st.

Definition update_minZ (data : CompassData.t) (st : CompassSetting.t * Clock)
  : CompassSetting.t * Clock :=
  if Rlt_dec (CompassData.rawZ data) (CompassSetting.minZ (fst st))
  then stamp (CompassSetting.set_minZ (CompassData.rawZ data)) st else st.

Definition update_maxX (data : CompassData.t) (st : CompassSetting.t * Clock)
  : CompassSetting.t * Clock :=
  if Rgt_dec (CompassData.rawX data) (CompassSetting.maxX (fst st))
  then stamp (CompassSetting.set_maxX (CompassData.rawX data)) st else st.

Definition update_maxY (data : CompassData.t) (st : CompassSetting.t * Clock)
  : CompassSetting.t * Clock :=
  if Rgt_dec (CompassData.rawY data) (CompassSetting.maxY (fst st))
  then stamp (CompassSetting.set_maxY (CompassData.rawY data)) st else st.

Definition update_maxZ (data : CompassData.t) (st : CompassSetting.t * Clock)
  : CompassSetting.t * Clock :=
  if Rgt_dec (CompassData.rawZ data) (CompassSetting.maxZ (fst st))
  then stamp (CompassSetting.set_maxZ (CompassData.rawZ data)) st else st.

(** The updates in the order of the source: the three minima, then the
    three maxima. *)
Definition update_bounds (data : CompassData.t) (st : CompassSetting.t * Clock)
  : CompassSetting.t * Clock :=
  update_maxZ data (update_maxY data (update_maxX data
    (update_minZ data (update_minY data (update_minX data st))))).

(** MultiCompassHMC5883L::calibration.  The result is the returned flag,
    the compass after the call and the clock after the call. *)
Definition calibration (h : MultiCompassHMC5883L) (data : CompassData.t) (clk : Clock)
  : bool * MultiCompassHMC5883L * Clock :=
  let st := update_bounds data (settings (compass h), clk) in
  let (now, clk') := millis (snd st) in
  ((int64 (now - CompassSetting.lastCalibration (fst st)) >? calibrationPeriod h)%Z,
   mkHMC5883L (with_settings (fst st) (compass h)) (calibrationPeriod h),
   clk').

(** Feeding a sequence of samples to [calibration], one call per sample. *)
Fixpoint calibrate_all (h : MultiCompassHMC5883L) (samples : list CompassData.t)
  (clk : Clock) : MultiCompassHMC5883L * Clock :=
  match samples with
  | [] => (h, clk)
  | data :: rest =>
      let '(_, h', clk') := calibration h data clk in
      calibrate_all h' rest clk'
  end.

(** ** Reading the axes *)

Definition int16 (z : Z) : Z := ((z + 2 ^ 15) mod 2 ^ 16 - 2 ^ 15)%Z.

Definition HMC5883L_REGISTER_OUT_X_M : Z := 0x03.
Definition HMC5883L_REGISTER_OUT_X_L : Z := 0x04.
Definition HMC5883L_REGISTER_OUT_Z_M : Z := 0x05.
Definition HMC5883L_REGISTER_OUT_Z_L : Z := 0x06.
Definition HMC5883L_REGISTER_OUT_Y_M : Z := 0x07.
Definition HMC5883L_REGISTER_OUT_Y_L : Z := 0x08.

(** MultiCompass::readTwoBytes.  After the register pointer is set to
    [reg], the two bytes requested from the peripheral are the register
    [reg] and the one that follows it.  With [LSB] the first byte goes to
    [vha] and the second to [vla]; without it the other way round.  The
    combination [vha << 8 | vla] is stored in an [int16_t]. *)
Definition readTwoBytes (c : MultiCompass) (reg : Z) (LSB : bool) (wire : TwoWire) : Z :=
  let first := uint8 (wire (adress c) (uint8 reg)) in
  let second := uint8 (wire (adress c) (uint8 reg + 1)%Z) in
  let (vha, vla) := if LSB then (first, second) else (second, first) in
  int16 (Z.lor (Z.shiftl vha 8) vla).

(** MultiCompassHMC5883L::getData.  The three integers are converted to
    [float]; the other fields of the record are not written. *)
Definition getData (h : MultiCompassHMC5883L) (wire : TwoWire) (data : CompassData.t)
  : CompassData.t :=
  CompassData.mk
    (IZR (readTwoBytes (compass h) HMC5883L_REGISTER_OUT_X_M true wire))
    (IZR (readTwoBytes (compass h) HMC5883L_REGISTER_OUT_Y_M true wire))
    (IZR (readTwoBytes (compass h) HMC5883L_REGISTER_OUT_Z_M true wire))
    (CompassData.scaledX data) (CompassData.scaledY data) (CompassData.scaledZ data)
    (CompassData.heading data).

(** ** Vocabulary of the properties *)

(** The bounds of [s'] are at least as wide as those of [s]: no minimum
    went up and no maximum went down. *)
Definition widened (s s' : CompassSetting.t) : Prop :=
  (CompassSetting.minX s' <= CompassSetting.minX s /\
   CompassSetting.minY s' <= CompassSetting.minY s /\
   CompassSetting.minZ s' <= CompassSetting.minZ s /\
   CompassSetting.maxX s <= CompassSetting.maxX s' /\
   CompassSetting.maxY s <= CompassSetting.maxY s' /\
   CompassSetting.maxZ s <= CompassSetting.maxZ s')%R.

(** min <= max on every axis. *)
Definition ordered (s : CompassSetting.t) : Prop :=
  (CompassSetting.minX s <= CompassSetting.maxX s /\
   CompassSetting.minY s <= CompassSetting.maxY s /\
   CompassSetting.minZ s <= CompassSetting.maxZ s)%R.

(** The bounds enclose the sample on every axis. *)
Definition encloses (s : CompassSetting.t) (data : CompassData.t) : Prop :=
  (CompassSetting.minX s <= CompassData.rawX data <= CompassSetting.maxX s /\
   CompassSetting.minY s <= CompassData.rawY data <= CompassSetting.maxY s /\
   CompassSetting.minZ s <= CompassData.rawZ data <= CompassSetting.maxZ s)%R.

(** The sample lies between the sentinels of the constructor. *)
Definition within_sentinels (data : CompassData.t) : Prop :=
  (-100000 <= CompassData.rawX data <= 100000 /\
   -100000 <= CompassData.rawY data <= 100000 /\
   -100000 <= CompassData.rawZ data <= 100000)%R.

(** Both bounds of every axis are the raw value of the sample. *)
Definition pinned_to (s : CompassSetting.t) (data : CompassData.t) : Prop :=
  CompassSetting.minX s = CompassData.rawX data /\
  CompassSetting.maxX s = CompassData.rawX data /\
  CompassSetting.minY s = CompassData.rawY data /\
  CompassSetting.maxY s = CompassData.rawY data /\
  CompassSetting.minZ s = CompassData.rawZ data /\
  CompassSetting.maxZ s = CompassData.rawZ data.

(** The sample is a new extreme of some axis. *)
Definition new_extreme (s : CompassSetting.t) (data : CompassData.t) : Prop :=
  (CompassData.rawX data < CompassSetting.minX s \/
   CompassData.rawY data < CompassSetting.minY s \/
   CompassData.rawZ data < CompassSetting.minZ s \/
   CompassData.rawX data > CompassSetting.maxX s \/
   CompassData.rawY data > CompassSetting.maxY s \/
   CompassData.rawZ data > CompassSetting.maxZ s)%R.

(** How many of the six guards of [calibration] fire on a sample. *)
Definition updates (s : CompassSetting.t) (data : CompassData.t) : nat :=
  (if Rlt_dec (CompassData.rawX data) (CompassSetting.minX s) then 1 else 0) +
  (if Rlt_dec (CompassData.rawY data) (CompassSetting.minY s) then 1 else 0) +
  (if Rlt_dec (CompassData.rawZ data) (CompassSetting.minZ s) then 1 else 0) +
  (if Rgt_dec (CompassData.rawX data) (CompassSetting.maxX s) then 1 else 0) +
  (if Rgt_dec (CompassData.rawY data) (CompassSetting.maxY s) then 1 else 0) +
  (if Rgt_dec (CompassData.rawZ data) (CompassSetting.maxZ s) then 1 else 0).

(** [st'] is [st] after [k] consultations of the clock, the last of which
    (if any) became the time stamp. *)
Definition advanced (k : nat) (st st' : CompassSetting.t * Clock) : Prop :=
  (forall n, snd st' n = snd st (k + n)%nat) /\
  (k = O -> CompassSetting.lastCalibration (fst st')
            = CompassSetting.lastCalibration (fst st)) /\
  (forall j, k = S j -> CompassSetting.lastCalibration (fst st') = uint32 (snd st j)).

(** The six bounds and the declination of two records agree. *)
Definition same_calibration (a b : CompassSetting.t) : Prop :=
  CompassSetting.minX a = CompassSetting.minX b /\
  CompassSetting.minY a = CompassSetting.minY b /\
  CompassSetting.minZ a = CompassSetting.minZ b /\
  CompassSetting.maxX a = CompassSetting.maxX b /\
  CompassSetting.maxY a = CompassSetting.maxY b /\
  CompassSetting.maxZ a = CompassSetting.maxZ b /\
  CompassSetting.heading a = CompassSetting.heading b.

(** The flag, the compass and the time stamp that a call of [calibration]
    leaves, and the clock reading of its final comparison. *)
Definition complete (h : MultiCompassHMC5883L) (data : CompassData.t) (clk : Clock) : bool :=
  fst (fst (calibration h data clk)).

Definition calibrated (h : MultiCompassHMC5883L) (data : CompassData.t) (clk : Clock)
  : MultiCompassHMC5883L :=
  snd (fst (calibration h data clk)).

Definition stamp_after (h : MultiCompassHMC5883L) (data : CompassData.t) (clk : Clock) : Z :=
  CompassSetting.lastCalibration (settings (compass (calibrated h data clk))).

Definition final_reading (h : MultiCompassHMC5883L) (data : CompassData.t) (clk : Clock) : Z :=
  fst (millis (snd (update_bounds data (settings (compass h), clk)))).

(** A clock that stands still at [t]. *)
Definition steady (t : Z) : Clock := fun _ => t.

(** [seed h r] is the device after [h.setCalibration(&r)]. *)
Definition seed (h : MultiCompassHMC5883L) (r : CompassSetting.t) : MultiCompassHMC5883L :=
  mkHMC5883L (setCalibration r (compass h)) (calibrationPeriod h).

(** A sample with the given raw values and everything else zero, as
    [CompassData data = {}] followed by [getData]. *)
Definition sample (x y z : R) : CompassData.t := CompassData.mk x y z 0 0 0 0.

(** A scaled reading. *)
Definition scaled (x y z : R) : CompassData.t := CompassData.mk 0 0 0 x y z 0.


(** The content of a register of the compass, as the chip holds it. *)
Definition register (h : MultiCompassHMC5883L) (reg : Z) (wire : TwoWire) : Z :=
  readByte (compass h) reg wire.

(** Bit [i] of a byte lies outside the field selected by [mask]. *)
Definition outside (mask i : Z) : Prop := Z.testbit mask i = false.

(** All bytes. *)
Definition bytes : list Z := map Z.of_nat (seq 0 256).

Definition all_Mode : list HMC5883L_Mode :=
  [HMC5883L_MODE_IDLE; HMC5883_MODE_SINGLE; HMC5883L_MODE_CONTINOUS].
Definition all_Samples : list HMC5883L_Samples :=
  [HMC5883L_SAMPLES_8; HMC5883L_SAMPLES_4; HMC5883L_SAMPLES_2; HMC5883L_SAMPLES_1].
Definition all_OutputRate : list HMC5883L_OutputRate :=
  [HMC5883L_OUTPUTRATE_75HZ; HMC5883L_OUTPUTRATE_30HZ; HMC5883L_OUTPUTRATE_15HZ;
   HMC5883L_OUTPUTRATE_7_5HZ; HMC5883L_OUTPUTRATE_3HZ; HMC5883L_OUTPUTRATE_1_5HZ;
   HMC5883L_OUTPUTRATE_0_75_HZ].
Definition all_FieldRange : list HMC5883L_FieldRange :=
  [HMC5883L_FIELDRANGE_8_1GA; HMC5883L_FIELDRANGE_5_6GA; HMC5883L_FIELDRANGE_4_7GA;
   HMC5883L_FIELDRANGE_4GA; HMC5883L_FIELDRANGE_2_5GA; HMC5883L_FIELDRANGE_1_9GA;
   HMC5883L_FIELDRANGE_1_3GA; HMC5883L_FIELDRANGE_0_88GA].

(** A bus on which the compass register [reg0] holds [v] and every other
    register is zero. *)
Definition bus_with (h : MultiCompassHMC5883L) (reg0 v : Z) : TwoWire :=
  poke (fun _ _ => 0%Z) (adress (compass h)) reg0 v.

(** ** Vocabulary of the further properties *)

(** Zero lies between the bounds of every axis. *)
Definition straddles (s : CompassSetting.t) : Prop :=
  (CompassSetting.minX s <= 0 <= CompassSetting.maxX s /\
   CompassSetting.minY s <= 0 <= CompassSetting.maxY s /\
   CompassSetting.minZ s <= 0 <= CompassSetting.maxZ s)%R.

(** The three scaled values lie between -1 and 1. *)
Definition unit_range (data : CompassData.t) : Prop :=
  (-1 <= CompassData.scaledX data <= 1 /\
   -1 <= CompassData.scaledY data <= 1 /\
   -1 <= CompassData.scaledZ data <= 1)%R.

(** [scaleData] has a divisor to divide by on every axis. *)
Definition scalable (s : CompassSetting.t) : Prop :=
  divisorX s <> 0%R /\ divisorY s <> 0%R /\ divisorZ s <> 0%R.

(** The raw values of two records agree, and so do their headings. *)
Definition same_raw (a b : CompassData.t) : Prop :=
  CompassData.rawX a = CompassData.rawX b /\
  CompassData.rawY a = CompassData.rawY b /\
  CompassData.rawZ a = CompassData.rawZ b /\
  CompassData.heading a = CompassData.heading b.

(** The two bytes of the 16-bit two's complement representation. *)
Definition high_byte (v : Z) : Z := uint8 (Z.shiftr v 8).
Definition low_byte (v : Z) : Z := uint8 v.

(** The output registers of the compass hold the measurement (x, y, z),
    each value with its high byte in the first register of its pair. *)
Definition holds_sample (h : MultiCompassHMC5883L) (wire : TwoWire) (x y z : Z) : Prop :=
  wire (adress (compass h)) HMC5883L_REGISTER_OUT_X_M = high_byte x /\
  wire (adress (compass h)) HMC5883L_REGISTER_OUT_X_L = low_byte x /\
  wire (adress (compass h)) HMC5883L_REGISTER_OUT_Z_M = high_byte z /\
  wire (adress (compass h)) HMC5883L_REGISTER_OUT_Z_L = low_byte z /\
  wire (adress (compass h)) HMC5883L_REGISTER_OUT_Y_M = high_byte y /\
  wire (adress (compass h)) HMC5883L_REGISTER_OUT_Y_L = low_byte y.

(** A bus whose compass output registers hold (x, y, z). *)
Definition bus_with_sample (h : MultiCompassHMC5883L) (x y z : Z) : TwoWire :=
  let a := adress (compass h) in
  poke (poke (poke (poke (poke (poke (fun _ _ => 0%Z)
    a HMC5883L_REGISTER_OUT_X_M (high_byte x))
    a HMC5883L_REGISTER_OUT_X_L (low_byte x))
    a HMC5883L_REGISTER_OUT_Z_M (high_byte z))
    a HMC5883L_REGISTER_OUT_Z_L (low_byte z))
    a HMC5883L_REGISTER_OUT_Y_M (high_byte y))
    a HMC5883L_REGISTER_OUT_Y_L (low_byte y).

(** A value that fits an [int16_t]. *)
Definition fits_int16 (v : Z) : Prop := (- 2 ^ 15 <= v < 2 ^ 15)%Z.

(** The time stamp is a value that [millis()] can return. *)
Definition stamp_in_range (s : CompassSetting.t) : Prop :=
  (0 <= CompassSetting.lastCalibration s < 2 ^ 32)%Z.

(** Two successive readings of the clock never differ by more than
    [period]. *)
Definition slow_clock (period : Z) (clk : Clock) : Prop :=
  forall k : nat, (uint32 (clk (S k)) - uint32 (clk k) <= period)%Z.

(** The content of the mode register and of the two configuration
    registers of the compass. *)
Definition mode_register (h : MultiCompassHMC5883L) (wire : TwoWire) : Z :=
  register h HMC5883L_REGISTER_MODE wire.
Definition config_a (h : MultiCompassHMC5883L) (wire : TwoWire) : Z :=
  register h HMC5883L_REGISTER_CONFIG_A wire.
Definition config_b (h : MultiCompassHMC5883L) (wire : TwoWire) : Z :=
  register h HMC5883L_REGISTER_CONFIG_B wire.

(** The samples field of configuration register A; the header declares
    [getAveragedSamples] but the source does not define it. *)
Definition samples_field (h : MultiCompassHMC5883L) (wire : TwoWire) : Z :=
  Z.land (Z.shiftr (config_a h wire) 5) 3.


(** ** The end of [calculateHeading] in binary32

    [data->heading] is a [float]; [2 * PI] is a [double] constant, so the
    comparison with it and the addition or subtraction of it are done in
    [double] and the result is rounded back to [float].  The width of
    [double] depends on the target: 64 bits on most, 32 bits on AVR. *)
Record Target : Type := mkTarget {
  double_prec : Z;
  double_emax : Z
}.

Definition double64 : Target := mkTarget 53 1024.
Definition double32 : Target := mkTarget 24 128.

(** The value of a decimal literal [num / den] in a binary format. *)
Definition of_ratio (prec emax : Z) (num den : positive) : spec_float :=
  let '(q, e, l) := SFdiv_core_binary prec emax (Zpos num) 0 (Zpos den) 0 in
  binary_round_aux prec emax false q e l.

(** The value of an [int] in a binary format. *)
Definition of_int (prec emax : Z) (n : Z) : spec_float :=
  binary_normalize prec emax n 0 false.

(** Modelled from the spec: the macro [PI] comes from Arduino.h, which is
    not among the sources; the spec normalises by 2 pi, and Arduino.h
    defines [PI] as the literal 3.1415926535897932384626433832795, a
    [double]. *)
Definition PI_const (t : Target) : spec_float :=
  of_ratio (double_prec t) (double_emax t) 31415926535897932384626433832795 (10 ^ 31).

(** [2 * PI] and, for the statements, [4 * PI]. *)
Definition TWO_PI (t : Target) : spec_float :=
  SFmul (double_prec t) (double_emax t)
        (of_int (double_prec t) (double_emax t) 2) (PI_const t).








Definition float_two_pi : spec_float := S754_finite false 13176795 (-21).

(** ** Concrete devices and samples used in the examples *)

(** The HMC5883L as constructed, with zeroed storage. *)
Definition fresh_hmc : MultiCompassHMC5883L := MultiCompassHMC5883L_new 0 0.

(** Bounds of -500 and 500 on every axis, no declination. *)
Definition symmetric_500 : CompassSetting.t :=
  CompassSetting.mk (-500) (-500) (-500) 500 500 500 0 0.

(** All bounds zero, as the example sketch seeds them. *)
Definition all_zero : CompassSetting.t := CompassSetting.mk 0 0 0 0 0 0 0 0.

(** The HMC5883L seeded with [symmetric_500]. *)
Definition seeded_hmc : MultiCompassHMC5883L := seed fresh_hmc symmetric_500.

(** A record of forty zero bytes, the size of [CompassSetting] when
    [float] takes four bytes and [long long] is aligned on eight. *)
Definition zeroed_record : list Z := repeat 0%Z 40.

(** * The calibration step *)

Section Calibration.

Import CompassSetting CompassData.

Local Open Scope R_scope.

Lemma widened_refl s : widened s s.
Proof. unfold widened; repeat split; apply Rle_refl. Qed.

Lemma widened_trans s1 s2 s3 : widened s1 s2 -> widened s2 s3 -> widened s1 s3.
Proof. unfold widened; intros H12 H23; decompose [and] H12; decompose [and] H23; repeat split; lra. Qed.

Lemma widened_ordered s s' : widened s s' -> ordered s -> ordered s'.
Proof. unfold widened, ordered; intros Hw Ho; decompose [and] Hw; decompose [and] Ho; repeat split; lra. Qed.

Lemma encloses_ordered s data : encloses s data -> ordered s.
Proof. unfold encloses, ordered; intros He; decompose [and] He; repeat split; lra. Qed.

Lemma advanced_refl st : advanced 0 st st.
Proof. repeat split; intros; try discriminate; reflexivity. Qed.

Lemma advanced_trans k1 k2 a b c :
  advanced k1 a b -> advanced k2 b c -> advanced (k1 + k2) a c.
Proof.
  intros (Hc1 & Hz1 & Hs1) (Hc2 & Hz2 & Hs2). repeat split.
  - intro n. rewrite Hc2, Hc1. f_equal. lia.
  - intro Hk. assert (k1 = O /\ k2 = O) as [-> ->] by lia.
    rewrite Hz2, Hz1; reflexivity.
  - intros j Hk. destruct k2 as [|j2].
    + rewrite Hz2 by reflexivity. apply Hs1. lia.
    + rewrite (Hs2 j2 eq_refl), Hc1. do 2 f_equal. lia.
Qed.

(** Each guarded update taken alone: the field it may change, the fields
    it leaves alone, and its use of the clock. *)
Ltac guarded_update f :=
  intros; unfold f, stamp, millis;
  match goal with
  | |- context [if ?c then _ else _] => destruct c
  end; cbn; repeat split; intros; try discriminate; try reflexivity;
  match goal with
  | H : S _ = S ?j |- _ => assert (j = O) as -> by lia; reflexivity
  | H : 1%nat = S ?j |- _ => assert (j = O) as -> by lia; reflexivity
  end.

Lemma update_minX_fields d st :
  minX (fst (update_minX d st))
    = (if Rlt_dec (rawX d) (minX (fst st)) then rawX d else minX (fst st)) /\
  minY (fst (update_minX d st)) = minY (fst st) /\
  minZ (fst (update_minX d st)) = minZ (fst st) /\
  maxX (fst (update_minX d st)) = maxX (fst st) /\
  maxY (fst (update_minX d st)) = maxY (fst st) /\
  maxZ (fst (update_minX d st)) = maxZ (fst st) /\
  CompassSetting.heading (fst (update_minX d st)) = CompassSetting.heading (fst st) /\
  advanced (if Rlt_dec (rawX d) (minX (fst st)) then 1 else 0) st (update_minX d st).
Proof. guarded_update update_minX. Qed.

Lemma update_minY_fields d st :
  minX (fst (update_minY d st)) = minX (fst st) /\
  minY (fst (update_minY d st))
    = (if Rlt_dec (rawY d) (minY (fst st)) then rawY d else minY (fst st)) /\
  minZ (fst (update_minY d st)) = minZ (fst st) /\
  maxX (fst (update_minY d st)) = maxX (fst st) /\
  maxY (fst (update_minY d st)) = maxY (fst st) /\
  maxZ (fst (update_minY d st)) = maxZ (fst st) /\
  CompassSetting.heading (fst (update_minY d st)) = CompassSetting.heading (fst st) /\
  advanced (if Rlt_dec (rawY d) (minY (fst st)) then 1 else 0) st (update_minY d st).
Proof. guarded_update update_minY. Qed.

Lemma update_minZ_fields d st :
  minX (fst (update_minZ d st)) = minX (fst st) /\
  minY (fst (update_minZ d st)) = minY (fst st) /\
  minZ (fst (update_minZ d st))
    = (if Rlt_dec (rawZ d) (minZ (fst st)) then rawZ d else minZ (fst st)) /\
  maxX (fst (update_minZ d st)) = maxX (fst st) /\
  maxY (fst (update_minZ d st)) = maxY (fst st) /\
  maxZ (fst (update_minZ d st)) = maxZ (fst st) /\
  CompassSetting.heading (fst (update_minZ d st)) = CompassSetting.heading (fst st) /\
  advanced (if Rlt_dec (rawZ d) (minZ (fst st)) then 1 else 0) st (update_minZ d st).
Proof. guarded_update update_minZ. Qed.

Lemma update_maxX_fields d st :
  minX (fst (update_maxX d st)) = minX (fst st) /\
  minY (fst (update_maxX d st)) = minY (fst st) /\
  minZ (fst (update_maxX d st)) = minZ (fst st) /\
  maxX (fst (update_maxX d st))
    = (if Rgt_dec (rawX d) (maxX (fst st)) then rawX d else maxX (fst st)) /\
  maxY (fst (update_maxX d st)) = maxY (fst st) /\
  maxZ (fst (update_maxX d st)) = maxZ (fst st) /\
  CompassSetting.heading (fst (update_maxX d st)) = CompassSetting.heading (fst st) /\
  advanced (if Rgt_dec (rawX d) (maxX (fst st)) then 1 else 0) st (update_maxX d st).
Proof. guarded_update update_maxX. Qed.

Lemma update_maxY_fields d st :
  minX (fst (update_maxY d st)) = minX (fst st) /\
  minY (fst (update_maxY d st)) = minY (fst st) /\
  minZ (fst (update_maxY d st)) = minZ (fst st) /\
  maxX (fst (update_maxY d st)) = maxX (fst st) /\
  maxY (fst (update_maxY d st))
    = (if Rgt_dec (rawY d) (maxY (fst st)) then rawY d else maxY (fst st)) /\
  maxZ (fst (update_maxY d st)) = maxZ (fst st) /\
  CompassSetting.heading (fst (update_maxY d st)) = CompassSetting.heading (fst st) /\
  advanced (if Rgt_dec (rawY d) (maxY (fst st)) then 1 else 0) st (update_maxY d st).
Proof. guarded_update update_maxY. Qed.

Lemma update_maxZ_fields d st :
  minX (fst (update_maxZ d st)) = minX (fst st) /\
  minY (fst (update_maxZ d st)) = minY (fst st) /\
  minZ (fst (update_maxZ d st)) = minZ (fst st) /\
  maxX (fst (update_maxZ d st)) = maxX (fst st) /\
  maxY (fst (update_maxZ d st)) = maxY (fst st) /\
  maxZ (fst (update_maxZ d st))
    = (if Rgt_dec (rawZ d) (maxZ (fst st)) then rawZ d else maxZ (fst st)) /\
  CompassSetting.heading (fst (update_maxZ d st)) = CompassSetting.heading (fst st) /\
  advanced (if Rgt_dec (rawZ d) (maxZ (fst st)) then 1 else 0) st (update_maxZ d st).
Proof. guarded_update update_maxZ. Qed.

(** The six updates together. *)
Lemma update_bounds_fields d st :
  minX (fst (update_bounds d st))
    = (if Rlt_dec (rawX d) (minX (fst st)) then rawX d else minX (fst st)) /\
  minY (fst (update_bounds d st))
    = (if Rlt_dec (rawY d) (minY (fst st)) then rawY d else minY (fst st)) /\
  minZ (fst (update_bounds d st))
    = (if Rlt_dec (rawZ d) (minZ (fst st)) then rawZ d else minZ (fst st)) /\
  maxX (fst (update_bounds d st))
    = (if Rgt_dec (rawX d) (maxX (fst st)) then rawX d else maxX (fst st)) /\
  maxY (fst (update_bounds d st))
    = (if Rgt_dec (rawY d) (maxY (fst st)) then rawY d else maxY (fst st)) /\
  maxZ (fst (update_bounds d st))
    = (if Rgt_dec (rawZ d) (maxZ (fst st)) then rawZ d else maxZ (fst st)) /\
  CompassSetting.heading (fst (update_bounds d st)) = CompassSetting.heading (fst st) /\
  advanced (updates (fst st) d) st (update_bounds d st).
Proof.
  unfold update_bounds, updates.
  set (s1 := update_minX d st).
  set (s2 := update_minY d s1).
  set (s3 := update_minZ d s2).
  set (s4 := update_maxX d s3).
  set (s5 := update_maxY d s4).
  destruct (update_minX_fields d st) as (X1 & X2 & X3 & X4 & X5 & X6 & X7 & A1).
  destruct (update_minY_fields d s1) as (Y1 & Y2 & Y3 & Y4 & Y5 & Y6 & Y7 & A2).
  destruct (update_minZ_fields d s2) as (Z1 & Z2 & Z3 & Z4 & Z5 & Z6 & Z7 & A3).
  destruct (update_maxX_fields d s3) as (U1 & U2 & U3 & U4 & U5 & U6 & U7 & A4).
  destruct (update_maxY_fields d s4) as (V1 & V2 & V3 & V4 & V5 & V6 & V7 & A5).
  destruct (update_maxZ_fields d s5) as (W1 & W2 & W3 & W4 & W5 & W6 & W7 & A6).
  fold s1 in X1, X2, X3, X4, X5, X6, X7, A1.
  fold s2 in Y1, Y2, Y3, Y4, Y5, Y6, Y7, A2.
  fold s3 in Z1, Z2, Z3, Z4, Z5, Z6, Z7, A3.
  fold s4 in U1, U2, U3, U4, U5, U6, U7, A4.
  fold s5 in V1, V2, V3, V4, V5, V6, V7, A5.
  rewrite X2 in A2.
  rewrite Y3, X3 in A3.
  rewrite Z4, Y4, X4 in A4.
  rewrite U5, Z5, Y5, X5 in A5.
  rewrite V6, U6, Z6, Y6, X6 in A6.
  assert (A : advanced (updates (fst st) d) st (update_maxZ d s5)).
  { apply (advanced_trans _ _ _ _ _
      (advanced_trans _ _ _ _ _
        (advanced_trans _ _ _ _ _
          (advanced_trans _ _ _ _ _ (advanced_trans _ _ _ _ _ A1 A2) A3) A4) A5) A6). }
  repeat split.
  - rewrite W1, V1, U1, Z1, Y1. exact X1.
  - rewrite W2, V2, U2, Z2, Y2, X2. reflexivity.
  - rewrite W3, V3, U3, Z3, Y3, X3. reflexivity.
  - rewrite W4, V4, U4, Z4, Y4, X4. reflexivity.
  - rewrite W5, V5, U5, Z5, Y5, X5. reflexivity.
  - rewrite W6, V6, U6, Z6, Y6, X6. reflexivity.
  - rewrite W7, V7, U7, Z7, Y7. exact X7.
  - apply A.
  - apply A.
  - apply A.
Qed.

Lemma calibration_settings h d clk :
  settings (compass (calibrated h d clk)) = fst (update_bounds d (settings (compass h), clk)).
Proof. reflexivity. Qed.

Lemma calibration_period h d clk :
  calibrationPeriod (calibrated h d clk) = calibrationPeriod h.
Proof. reflexivity. Qed.

Lemma calibration_widened h d clk :
  widened (settings (compass h)) (settings (compass (calibrated h d clk))).
Proof.
  rewrite calibration_settings.
  destruct (update_bounds_fields d (settings (compass h), clk))
    as (E1 & E2 & E3 & E4 & E5 & E6 & _).
  cbn [fst] in *. unfold widened. rewrite E1, E2, E3, E4, E5, E6.
  repeat split;
    match goal with
    | |- context [if ?c then _ else _] => destruct c
    end; lra.
Qed.

Lemma calibration_encloses h d clk :
  encloses (settings (compass (calibrated h d clk))) d.
Proof.
  rewrite calibration_settings.
  destruct (update_bounds_fields d (settings (compass h), clk))
    as (E1 & E2 & E3 & E4 & E5 & E6 & _).
  cbn [fst] in *. unfold encloses. rewrite E1, E2, E3, E4, E5, E6.
  repeat split;
    match goal with
    | |- context [if ?c then _ else _] => destruct c
    end; lra.
Qed.

Lemma calibrate_all_cons h d rest clk :
  calibrate_all h (d :: rest) clk
  = calibrate_all (calibrated h d clk) rest (snd (calibration h d clk)).
Proof.
  cbn [calibrate_all]. unfold calibrated.
  destruct (calibration h d clk) as [[b h'] clk']. reflexivity.
Qed.

Lemma calibrate_all_app h xs ys clk :
  calibrate_all h (xs ++ ys) clk
  = calibrate_all (fst (calibrate_all h xs clk)) ys (snd (calibrate_all h xs clk)).
Proof.
  revert h clk. induction xs as [|d xs IH]; intros h clk.
  - reflexivity.
  - rewrite <- app_comm_cons, !calibrate_all_cons. apply IH.
Qed.

Lemma calibrate_all_widened h ds clk :
  widened (settings (compass h)) (settings (compass (fst (calibrate_all h ds clk)))).
Proof.
  revert h clk. induction ds as [|d ds IH]; intros h clk.
  - apply widened_refl.
  - rewrite calibrate_all_cons.
    eapply widened_trans; [apply calibration_widened | apply IH].
Qed.

(** After at least one call the bounds are ordered, whatever the state
    before the first call and whatever the samples. *)
Lemma calibrate_all_ordered h before d after clk :
  ordered (settings (compass (fst (calibrate_all h (before ++ d :: after) clk)))).
Proof.
  rewrite calibrate_all_app, calibrate_all_cons.
  eapply widened_ordered; [apply calibrate_all_widened|].
  eapply encloses_ordered. apply calibration_encloses.
Qed.

(** The first sample fed to a freshly constructed device replaces every
    sentinel that it does not exceed: when it lies between the sentinels,
    each minimum and each maximum becomes the raw value of its axis. *)
Lemma first_sample_replaces_sentinels ts a d clk :
  within_sentinels d ->
  pinned_to (settings (compass (calibrated (MultiCompassHMC5883L_new ts a) d clk))) d.
Proof.
  intros (Hx & Hy & Hz). rewrite calibration_settings.
  destruct (update_bounds_fields d
              (settings (compass (MultiCompassHMC5883L_new ts a)), clk))
    as (E1 & E2 & E3 & E4 & E5 & E6 & _).
  cbn [fst] in *. unfold pinned_to. rewrite E1, E2, E3, E4, E5, E6. cbn.
  repeat split;
    match goal with
    | |- context [if ?c then _ else _] => destruct c
    end; lra.
Qed.

(** C2. Whatever the state of the device and whatever the sample, one
    call of [calibration] can only widen the bounds: no stored minimum
    goes up and no stored maximum goes down; hence along any sequence of
    samples the bounds after a longer prefix are at least as wide as after
    a shorter one. Starting from the constructor's sentinels, as soon as
    the sequence contains a sample that lies between the sentinels,
    min <= max holds on every axis; fed first, such a sample becomes the
    minimum and the maximum of each axis. *)
Theorem calibration_bounds_monotone :
  forall (ts a : Z) (h : MultiCompassHMC5883L) (before more after : list CompassData.t)
         (d : CompassData.t) (clk : Clock),
    widened (settings (compass h)) (settings (compass (calibrated h d clk))) /\
    widened (settings (compass (fst (calibrate_all h before clk))))
            (settings (compass (fst (calibrate_all h (before ++ more) clk)))) /\
    (within_sentinels d ->
     ordered (settings (compass (fst
       (calibrate_all (MultiCompassHMC5883L_new ts a) (before ++ d :: after) clk)))) /\
     pinned_to (settings (compass (calibrated (MultiCompassHMC5883L_new ts a) d clk))) d).
Proof.
  intros ts a h before more after d clk. split; [|split].
  - apply calibration_widened.
  - rewrite calibrate_all_app. apply calibrate_all_widened.
  - intro Hd. split.
    + apply calibrate_all_ordered.
    + apply first_sample_replaces_sentinels, Hd.
Qed.

End Calibration.

(** * The completion flag *)

Section Completion.

Import CompassSetting CompassData.

Local Open Scope Z_scope.

Lemma uint32_range z : 0 <= uint32 z < 2 ^ 32.
Proof. unfold uint32. apply Z.mod_pos_bound. reflexivity. Qed.

Lemma int64_small z : - 2 ^ 63 <= z < 2 ^ 63 -> int64 z = z.
Proof. intro Hz. unfold int64. rewrite Z.mod_small; lia. Qed.

Lemma updates_bound s d : (updates s d <= 6)%nat.
Proof.
  unfold updates.
  repeat match goal with
         | |- context [if ?c then _ else _] => destruct c
         end; lia.
Qed.

Lemma updates_new_extreme s d : new_extreme s d <-> updates s d <> O.
Proof.
  unfold updates, new_extreme.
  repeat match goal with
         | |- context [if ?c then _ else _] => destruct c
         end; cbn; split; intro H; try discriminate; try tauto.
Qed.

(** The flag is the comparison of the source, evaluated on the time stamp
    that the updates left and on the reading taken after them. *)
Lemma complete_unfold h d clk :
  complete h d clk
  = (int64 (final_reading h d clk - stamp_after h d clk) >? calibrationPeriod h).
Proof. reflexivity. Qed.

Lemma calibration_advanced h d clk :
  advanced (updates (settings (compass h)) d)
           (settings (compass h), clk)
           (update_bounds d (settings (compass h), clk)).
Proof. apply (update_bounds_fields d (settings (compass h), clk)). Qed.

(** A call that finds a new extreme stamps it with a reading of this very
    call, the one that precedes the reading of the final comparison. *)
Lemma calibration_refreshes h d clk :
  new_extreme (settings (compass h)) d ->
  exists k, (k < 6)%nat /\
            stamp_after h d clk = uint32 (clk k) /\
            final_reading h d clk = uint32 (clk (S k)).
Proof.
  intro Hn. apply updates_new_extreme in Hn.
  pose proof (updates_bound (settings (compass h)) d) as Hb.
  destruct (calibration_advanced h d clk) as (Hc & _ & Hs).
  destruct (updates (settings (compass h)) d) as [|k] eqn:Hu; [congruence|].
  exists k. split; [lia|]. split.
  - unfold stamp_after. rewrite calibration_settings. apply (Hs k eq_refl).
  - unfold final_reading, millis. cbn [fst]. rewrite Hc. cbn [snd].
    do 2 f_equal. lia.
Qed.

(** A call that finds no new extreme keeps the time stamp and reads the
    clock once. *)
Lemma calibration_keeps_stamp h d clk :
  ~ new_extreme (settings (compass h)) d ->
  stamp_after h d clk = lastCalibration (settings (compass h)) /\
  final_reading h d clk = uint32 (clk O).
Proof.
  intro Hn.
  assert (Hu : updates (settings (compass h)) d = O).
  { destruct (updates (settings (compass h)) d) eqn:E; [reflexivity|].
    exfalso. apply Hn. apply updates_new_extreme. congruence. }
  destruct (calibration_advanced h d clk) as (Hc & Hz & _).
  rewrite Hu in Hc, Hz. split.
  - unfold stamp_after. rewrite calibration_settings. apply Hz. reflexivity.
  - unfold final_reading, millis. cbn [fst]. rewrite Hc. reflexivity.
Qed.

Lemma stamp_after_range h d clk :
  - 2 ^ 62 <= lastCalibration (settings (compass h)) <= 2 ^ 62 ->
  - 2 ^ 62 <= stamp_after h d clk <= 2 ^ 62.
Proof.
  intro Hr.
  destruct (Nat.eq_dec (updates (settings (compass h)) d) O) as [Hu|Hu].
  - assert (Hn : ~ new_extreme (settings (compass h)) d)
      by (intro Hn; apply updates_new_extreme in Hn; contradiction).
    destruct (calibration_keeps_stamp h d clk Hn) as [-> _]. exact Hr.
  - apply updates_new_extreme in Hu.
    destruct (calibration_refreshes h d clk Hu) as (k & _ & -> & _).
    pose proof (uint32_range (clk k)). lia.
Qed.

Lemma final_reading_range h d clk : 0 <= final_reading h d clk < 2 ^ 32.
Proof. unfold final_reading, millis. cbn [fst]. apply uint32_range. Qed.

(** C3. [calibration] returns true exactly when the clock reading of its
    final comparison minus the time stamp of the last bound update is
    greater than [calibrationPeriod], which the constructor leaves at
    1000. A call whose sample is a new extreme of some axis first sets the
    time stamp to a clock reading of that same call, the one taken just
    before the reading of the comparison; a call without a new extreme
    keeps the time stamp. When the difference equals the period the call
    returns false. *)
Theorem calibration_complete_iff :
  forall (ts a : Z) (h : MultiCompassHMC5883L) (d : CompassData.t) (clk : Clock),
    - 2 ^ 62 <= lastCalibration (settings (compass h)) <= 2 ^ 62 ->
    (complete h d clk = true <->
       final_reading h d clk - stamp_after h d clk > calibrationPeriod h) /\
    ((new_extreme (settings (compass h)) d /\
      exists k, (k < 6)%nat /\
                stamp_after h d clk = uint32 (clk k) /\
                final_reading h d clk = uint32 (clk (S k))) \/
     (~ new_extreme (settings (compass h)) d /\
      stamp_after h d clk = lastCalibration (settings (compass h)) /\
      final_reading h d clk = uint32 (clk O))) /\
    (final_reading h d clk - stamp_after h d clk = calibrationPeriod h ->
       complete h d clk = false) /\
    calibrationPeriod (MultiCompassHMC5883L_new ts a) = 1000.
Proof.
  intros ts a h d clk Hr.
  pose proof (stamp_after_range h d clk Hr) as Hs.
  pose proof (final_reading_range h d clk) as Hf.
  assert (Hw : int64 (final_reading h d clk - stamp_after h d clk)
               = final_reading h d clk - stamp_after h d clk)
    by (apply int64_small; lia).
  rewrite complete_unfold, Hw. split; [|split; [|split]].
  - split; intro H; [apply Z.gtb_lt in H | apply Z.gtb_lt]; lia.
  - destruct (Nat.eq_dec (updates (settings (compass h)) d) O) as [Hu|Hu].
    + right.
      assert (Hn : ~ new_extreme (settings (compass h)) d)
        by (intro Hn; apply updates_new_extreme in Hn; contradiction).
      split; [exact Hn | apply calibration_keeps_stamp, Hn].
    + left. apply updates_new_extreme in Hu.
      split; [exact Hu | apply calibration_refreshes, Hu].
  - intro He. rewrite He. unfold Z.gtb. rewrite Z.compare_refl. reflexivity.
  - reflexivity.
Qed.

(** ** Seeding the calibration *)

Lemma seed_settings h r :
  settings (compass (seed h r))
  = CompassSetting.mk (minX r) (minY r) (minZ r) (maxX r) (maxY r) (maxZ r)
      (CompassSetting.heading r) 0.
Proof. reflexivity. Qed.

Lemma new_extreme_seed h r d :
  new_extreme (settings (compass (seed h r))) d <-> new_extreme r d.
Proof. rewrite seed_settings. unfold new_extreme. cbn. tauto. Qed.

(** C8, as the code has it. [setCalibration] copies the six bounds and the
    declination of the record and sets the time stamp to zero. The next
    call of [calibration] returns true when its clock reading is greater
    than the period, provided its sample is no new extreme of the seeded
    bounds. *)
Theorem seeded_calibration_complete :
  forall (h : MultiCompassHMC5883L) (r : CompassSetting.t) (d : CompassData.t)
         (clk : Clock),
    ~ new_extreme r d ->
    uint32 (clk O) > calibrationPeriod h ->
    same_calibration (settings (compass (seed h r))) r /\
    lastCalibration (settings (compass (seed h r))) = 0 /\
    complete (seed h r) d clk = true.
Proof.
  intros h r d clk Hn Hgt. split; [|split].
  - rewrite seed_settings. unfold same_calibration. cbn. repeat split.
  - reflexivity.
  - rewrite <- new_extreme_seed in Hn.
    destruct (calibration_keeps_stamp (seed h r) d clk Hn) as [Hs Hf].
    rewrite complete_unfold, Hs, Hf, seed_settings.
    cbn [lastCalibration calibrationPeriod seed].
    pose proof (uint32_range (clk O)) as Hu.
    rewrite Z.sub_0_r, int64_small by lia.
    apply Z.gtb_lt. lia.
Qed.

(** C8 as stated fails: seeded with bounds of -500 and 500, a sample of
    600 on X is a new maximum; the call stamps it with the current reading
    5000 and returns false, although 5000 is greater than the period. *)
Lemma seeded_calibration_restarts :
  uint32 (steady 5000 O) > calibrationPeriod (seed fresh_hmc symmetric_500) /\
  complete (seed fresh_hmc symmetric_500) (sample 600 0 0) (steady 5000) = false.
Proof.
  split; [reflexivity|].
  assert (Hn : new_extreme (settings (compass (seed fresh_hmc symmetric_500)))
                           (sample 600 0 0)).
  { unfold new_extreme. cbn. right; right; right; left. lra. }
  destruct (calibration_refreshes _ _ (steady 5000) Hn) as (k & _ & Hs & Hf).
  rewrite complete_unfold, Hs, Hf. reflexivity.
Qed.

End Completion.

(** * Scaling *)

Section Scaling.

Import CompassSetting CompassData.

Local Open Scope R_scope.

Lemma fdiv_some a b : b <> 0 -> fdiv a b = Some (a / b).
Proof. intro Hb. unfold fdiv. destruct (Req_dec_T b 0); [contradiction|reflexivity]. Qed.

Lemma fdiv_none a b : fdiv a b = None <-> b = 0.
Proof. unfold fdiv. destruct (Req_dec_T b 0); split; intro H; congruence. Qed.

(** A divisor vanishes exactly when both bounds of its axis are zero. *)
Lemma half_abs_sum_zero hi lo : (Rabs hi + Rabs lo) / 2 = 0 <-> hi = 0 /\ lo = 0.
Proof.
  pose proof (Rabs_pos hi) as Hh. pose proof (Rabs_pos lo) as Hl. split.
  - intro H. assert (Rabs hi = 0 /\ Rabs lo = 0) as [Ha Hb] by lra.
    split; [destruct (Req_dec hi 0) as [|Hn] | destruct (Req_dec lo 0) as [|Hn]];
      try assumption; apply Rabs_no_R0 in Hn; contradiction.
  - intros [-> ->]. rewrite Rabs_R0. lra.
Qed.

Lemma scaleData_some c d :
  divisorX (settings c) <> 0 ->
  divisorY (settings c) <> 0 ->
  divisorZ (settings c) <> 0 ->
  scaleData c d
  = Some (CompassData.mk (rawX d) (rawY d) (rawZ d)
            ((rawX d - (maxX (settings c) + minX (settings c)) / 2) / divisorX (settings c))
            ((rawY d - (maxY (settings c) + minY (settings c)) / 2) / divisorY (settings c))
            ((rawZ d - (maxZ (settings c) + minZ (settings c)) / 2) / divisorZ (settings c))
            (CompassData.heading d)).
Proof.
  intros Hx Hy Hz. unfold scaleData. cbv zeta.
  rewrite !fdiv_some by assumption. reflexivity.
Qed.

Lemma scaleData_none c d :
  scaleData c d = None <->
  divisorX (settings c) = 0 \/ divisorY (settings c) = 0 \/ divisorZ (settings c) = 0.
Proof.
  unfold scaleData, fdiv. cbv zeta.
  destruct (Req_dec_T (divisorX (settings c)) 0);
    destruct (Req_dec_T (divisorY (settings c)) 0);
    destruct (Req_dec_T (divisorZ (settings c)) 0);
    split; intro H; try discriminate; try tauto.
Qed.

(** C4. Whenever the three divisors are nonzero, [scaleData] stores on
    each axis (raw - (max+min)/2) / ((|max|+|min|)/2) and leaves the raw
    values and the heading alone. With bounds of -500 and 500 on every axis
    the raw sample (250, -250, 0) is scaled to (0.5, -0.5, 0). *)
Theorem scaleData_formula :
  (forall (c : MultiCompass) (d : CompassData.t),
     (Rabs (maxX (settings c)) + Rabs (minX (settings c))) / 2 <> 0 ->
     (Rabs (maxY (settings c)) + Rabs (minY (settings c))) / 2 <> 0 ->
     (Rabs (maxZ (settings c)) + Rabs (minZ (settings c))) / 2 <> 0 ->
     scaleData c d
     = Some (CompassData.mk (rawX d) (rawY d) (rawZ d)
               ((rawX d - (maxX (settings c) + minX (settings c)) / 2)
                / ((Rabs (maxX (settings c)) + Rabs (minX (settings c))) / 2))
               ((rawY d - (maxY (settings c) + minY (settings c)) / 2)
                / ((Rabs (maxY (settings c)) + Rabs (minY (settings c))) / 2))
               ((rawZ d - (maxZ (settings c) + minZ (settings c)) / 2)
                / ((Rabs (maxZ (settings c)) + Rabs (minZ (settings c))) / 2))
               (CompassData.heading d))) /\
  (forall (ts a : Z),
     scaleData (setCalibration symmetric_500 (MultiCompass_new ts a)) (sample 250 (-250) 0)
     = Some (CompassData.mk 250 (-250) 0 0.5 (-0.5) 0 0)).
Proof.
  split.
  - intros c d Hx Hy Hz. apply scaleData_some; assumption.
  - intros ts a.
    assert (H500 : Rabs 500 = 500) by (unfold Rabs; destruct (Rcase_abs 500); lra).
    assert (Hm500 : Rabs (-500) = 500) by (unfold Rabs; destruct (Rcase_abs (-500)); lra).
    rewrite scaleData_some;
      unfold divisorX, divisorY, divisorZ; cbn; rewrite ?H500, ?Hm500; try lra.
    do 2 f_equal; lra.
Qed.

Lemma fresh_divisors ts a :
  divisorX (settings (MultiCompass_new ts a)) = 100000 /\
  divisorY (settings (MultiCompass_new ts a)) = 100000 /\
  divisorZ (settings (MultiCompass_new ts a)) = 100000.
Proof.
  assert (Hp : Rabs 100000 = 100000)
    by (unfold Rabs; destruct (Rcase_abs 100000); lra).
  assert (Hm : Rabs (-100000) = 100000)
    by (unfold Rabs; destruct (Rcase_abs (-100000)); lra).
  unfold divisorX, divisorY, divisorZ. cbn. rewrite Hp, Hm. repeat split; lra.
Qed.

Lemma scaleData_fresh ts a d :
  scaleData (MultiCompass_new ts a) d
  = Some (CompassData.mk (rawX d) (rawY d) (rawZ d)
            (rawX d / 100000) (rawY d / 100000) (rawZ d / 100000)
            (CompassData.heading d)).
Proof.
  destruct (fresh_divisors ts a) as (Dx & Dy & Dz).
  rewrite scaleData_some by (rewrite ?Dx, ?Dy, ?Dz; lra).
  rewrite Dx, Dy, Dz. cbn. do 2 f_equal; lra.
Qed.

(** C7, as the code has it. The constructor leaves the sentinels 100000
    and -100000 in the bounds, so each divisor of a freshly constructed
    compass is 100000 and [scaleData] divides every raw value by it. A
    division by zero happens exactly when both bounds of some axis are
    zero, for instance after [setCalibration] with an all-zero record. *)
Theorem scaleData_fresh_divisor :
  forall (ts a : Z) (c : MultiCompass) (d : CompassData.t),
    divisorX (settings (MultiCompass_new ts a)) = 100000 /\
    divisorY (settings (MultiCompass_new ts a)) = 100000 /\
    divisorZ (settings (MultiCompass_new ts a)) = 100000 /\
    scaleData (MultiCompass_new ts a) d
    = Some (CompassData.mk (rawX d) (rawY d) (rawZ d)
              (rawX d / 100000) (rawY d / 100000) (rawZ d / 100000)
              (CompassData.heading d)) /\
    (scaleData c d = None <->
       (maxX (settings c) = 0 /\ minX (settings c) = 0) \/
       (maxY (settings c) = 0 /\ minY (settings c) = 0) \/
       (maxZ (settings c) = 0 /\ minZ (settings c) = 0)) /\
    scaleData (setCalibration all_zero c) d = None.
Proof.
  intros ts a c d.
  destruct (fresh_divisors ts a) as (Dx & Dy & Dz).
  split; [exact Dx|]. split; [exact Dy|]. split; [exact Dz|]. split; [|split].
  - apply scaleData_fresh.
  - rewrite scaleData_none. unfold divisorX, divisorY, divisorZ.
    rewrite !half_abs_sum_zero. reflexivity.
  - apply scaleData_none. left. unfold divisorX. cbn. rewrite Rabs_R0. lra.
Qed.

(** C7 as stated fails: the divisor of a freshly constructed compass is
    not zero, its bounds are not zero, and scaling succeeds. *)
Lemma scaleData_fresh_no_division_by_zero :
  divisorX (settings (MultiCompass_new 0 0)) <> 0 /\
  minX (settings (MultiCompass_new 0 0)) <> 0 /\
  maxX (settings (MultiCompass_new 0 0)) <> 0 /\
  scaleData (MultiCompass_new 0 0) (sample 1 1 1) <> None.
Proof.
  destruct (fresh_divisors 0 0) as (Dx & _).
  repeat split.
  - rewrite Dx. lra.
  - cbn. lra.
  - cbn. lra.
  - rewrite scaleData_fresh. discriminate.
Qed.

End Scaling.

(** * Heading *)

Section Heading.

Import CompassSetting CompassData.

Local Open Scope R_scope.












(** The single pass of [calculateHeading]. *)
Lemma calculateHeading_heading c d x y z :
  CompassData.heading (calculateHeading c d x y z)
  = (if Rlt_dec (heading_sum c d x y z) 0 then heading_sum c d x y z + 2 * PI
     else if Rgt_dec (heading_sum c d x y z) (2 * PI) then heading_sum c d x y z - 2 * PI
     else heading_sum c d x y z).
Proof. reflexivity. Qed.




End Heading.

(** * Registers of the device profile *)

Section Registers.

Local Open Scope Z_scope.

Lemma uint8_range z : 0 <= uint8 z < 256.
Proof. unfold uint8. apply Z.mod_pos_bound. reflexivity. Qed.

Lemma uint8_idem z : uint8 (uint8 z) = uint8 z.
Proof. unfold uint8. apply Z.mod_mod. discriminate. Qed.

(** A property checked on the 256 bytes holds of every byte. *)
Lemma byte_forall (P : Z -> bool) :
  forallb P bytes = true -> forall v, 0 <= v < 256 -> P v = true.
Proof.
  intros H v Hv. rewrite forallb_forall in H. apply H.
  unfold bytes. apply in_map_iff. exists (Z.to_nat v). split; [lia|].
  apply in_seq. lia.
Qed.

(** Two values that agree once the field is cleared agree on every bit
    outside the field. *)
Lemma outside_bits a b mask i :
  Z.ldiff a mask = Z.ldiff b mask -> outside mask i -> Z.testbit a i = Z.testbit b i.
Proof.
  unfold outside. intros Hd Hm.
  assert (Ha : Z.testbit (Z.ldiff a mask) i = Z.testbit a i)
    by (rewrite Z.ldiff_spec, Hm; apply andb_true_r).
  assert (Hb : Z.testbit (Z.ldiff b mask) i = Z.testbit b i)
    by (rewrite Z.ldiff_spec, Hm; apply andb_true_r).
  rewrite <- Ha, <- Hb, Hd. reflexivity.
Qed.

(** The transport: a register reads back the byte last written to it, and
    a write touches no other register and no other peripheral. *)
Lemma register_writeByte h reg v wire :
  register h reg (writeByte (compass h) reg v wire) = uint8 v.
Proof.
  unfold register, readByte, writeByte, poke.
  rewrite !Z.eqb_refl. cbn [andb]. apply uint8_idem.
Qed.

Lemma writeByte_frame c reg v wire a r :
  a <> adress c \/ r <> uint8 reg -> writeByte c reg v wire a r = wire a r.
Proof.
  intro H. unfold writeByte, poke.
  destruct (Z.eqb_spec a (adress c)); destruct (Z.eqb_spec r (uint8 reg));
    cbn [andb]; try reflexivity.
  exfalso. destruct H; contradiction.
Qed.

Lemma register_range h reg wire : 0 <= register h reg wire < 256.
Proof. unfold register, readByte. apply uint8_range. Qed.

(** What each setter leaves in its register, as a function of the content
    it found there. *)
Lemma setMode_register h m wire :
  register h HMC5883L_REGISTER_MODE (setMode h m wire)
  = uint8 (Z.lor (uint8 (Z.land (register h HMC5883L_REGISTER_MODE wire) 252))
                 (Mode_value m)).
Proof. unfold setMode. rewrite register_writeByte, uint8_idem. reflexivity. Qed.

Lemma setOutputRate_register h r wire :
  register h HMC5883L_REGISTER_CONFIG_A (setOutputRate h r wire)
  = uint8 (Z.lor (uint8 (Z.land (register h HMC5883L_REGISTER_CONFIG_A wire) 227))
                 (Z.shiftl (OutputRate_value r) 2)).
Proof. unfold setOutputRate. rewrite register_writeByte, uint8_idem. reflexivity. Qed.

Lemma setAveragedSamples_register h s wire :
  register h HMC5883L_REGISTER_CONFIG_A (setAveragedSamples h s wire)
  = uint8 (Z.lor (uint8 (Z.land (register h HMC5883L_REGISTER_CONFIG_A wire) 159))
                 (Z.shiftl (Samples_value s) 5)).
Proof. unfold setAveragedSamples. rewrite register_writeByte, uint8_idem. reflexivity. Qed.

Lemma setFieldRange_register h f wire :
  register h HMC5883L_REGISTER_CONFIG_B (setFieldRange h f wire)
  = Z.shiftl (FieldRange_value f) 5.
Proof.
  unfold setFieldRange. rewrite register_writeByte. destruct f; reflexivity.
Qed.

(** The byte arithmetic of the three read-modify-write setters, checked on
    every byte and every enumerator. *)
Lemma mode_byte m v :
  0 <= v < 256 ->
  Z.ldiff (uint8 (Z.lor (uint8 (Z.land v 252)) (Mode_value m))) 3 = Z.ldiff v 3 /\
  uint8 (Z.land (uint8 (Z.lor (uint8 (Z.land v 252)) (Mode_value m))) 3) = Mode_value m.
Proof.
  intro Hv.
  pose proof (byte_forall
    (fun v => forallb (fun m =>
       (Z.ldiff (uint8 (Z.lor (uint8 (Z.land v 252)) (Mode_value m))) 3 =? Z.ldiff v 3)
       && (uint8 (Z.land (uint8 (Z.lor (uint8 (Z.land v 252)) (Mode_value m))) 3)
           =? Mode_value m)) all_Mode)) as H.
  specialize (H ltac:(vm_compute; reflexivity) v Hv). cbv beta in H.
  rewrite forallb_forall in H.
  assert (Hin : In m all_Mode) by (destruct m; cbn; tauto).
  specialize (H m Hin). apply andb_true_iff in H. destruct H as [H1 H2].
  split; apply Z.eqb_eq; assumption.
Qed.

Lemma rate_byte r v :
  0 <= v < 256 ->
  Z.ldiff (uint8 (Z.lor (uint8 (Z.land v 227)) (Z.shiftl (OutputRate_value r) 2))) 28
  = Z.ldiff v 28 /\
  uint8 (Z.shiftr
           (uint8 (Z.land
              (uint8 (Z.lor (uint8 (Z.land v 227)) (Z.shiftl (OutputRate_value r) 2))) 28)) 2)
  = OutputRate_value r.
Proof.
  intro Hv.
  pose proof (byte_forall
    (fun v => forallb (fun r =>
       (Z.ldiff (uint8 (Z.lor (uint8 (Z.land v 227)) (Z.shiftl (OutputRate_value r) 2))) 28
        =? Z.ldiff v 28)
       && (uint8 (Z.shiftr
             (uint8 (Z.land
                (uint8 (Z.lor (uint8 (Z.land v 227)) (Z.shiftl (OutputRate_value r) 2))) 28)) 2)
           =? OutputRate_value r)) all_OutputRate)) as H.
  specialize (H ltac:(vm_compute; reflexivity) v Hv). cbv beta in H.
  rewrite forallb_forall in H.
  assert (Hin : In r all_OutputRate) by (destruct r; cbn; tauto).
  specialize (H r Hin). apply andb_true_iff in H. destruct H as [H1 H2].
  split; apply Z.eqb_eq; assumption.
Qed.

Lemma samples_byte s v :
  0 <= v < 256 ->
  Z.ldiff (uint8 (Z.lor (uint8 (Z.land v 159)) (Z.shiftl (Samples_value s) 5))) 96
  = Z.ldiff v 96 /\
  Z.land (Z.shiftr (uint8 (Z.lor (uint8 (Z.land v 159)) (Z.shiftl (Samples_value s) 5))) 5) 3
  = Samples_value s.
Proof.
  intro Hv.
  pose proof (byte_forall
    (fun v => forallb (fun s =>
       (Z.ldiff (uint8 (Z.lor (uint8 (Z.land v 159)) (Z.shiftl (Samples_value s) 5))) 96
        =? Z.ldiff v 96)
       && (Z.land (Z.shiftr
             (uint8 (Z.lor (uint8 (Z.land v 159)) (Z.shiftl (Samples_value s) 5))) 5) 3
           =? Samples_value s)) all_Samples)) as H.
  specialize (H ltac:(vm_compute; reflexivity) v Hv). cbv beta in H.
  rewrite forallb_forall in H.
  assert (Hin : In s all_Samples) by (destruct s; cbn; tauto).
  specialize (H s Hin). apply andb_true_iff in H. destruct H as [H1 H2].
  split; apply Z.eqb_eq; assumption.
Qed.

Lemma getMode_register h wire :
  getMode h wire = uint8 (Z.land (register h HMC5883L_REGISTER_MODE wire) 3).
Proof. reflexivity. Qed.

Lemma getOutputRate_register h wire :
  getOutputRate h wire
  = uint8 (Z.shiftr (uint8 (Z.land (register h HMC5883L_REGISTER_CONFIG_A wire) 28)) 2).
Proof. reflexivity. Qed.

Lemma getFieldRange_register h wire :
  getFieldRange h wire = Z.land (Z.shiftr (register h HMC5883L_REGISTER_CONFIG_B wire) 5) 3.
Proof. reflexivity. Qed.

(** C9, as the code has it. [setMode], [setOutputRate] and
    [setAveragedSamples] read their register, clear their field, set it and
    write the byte back: every bit outside the field keeps its value and
    the field holds the new setting, for every prior content of the
    register. [setFieldRange] alone writes without reading: the register
    becomes the range shifted by five, so its five low bits are cleared
    whatever they were. *)
Theorem setters_preserve_other_bits :
  forall (h : MultiCompassHMC5883L) (wire : TwoWire) (m : HMC5883L_Mode)
         (r : HMC5883L_OutputRate) (s : HMC5883L_Samples) (f : HMC5883L_FieldRange)
         (i j : Z),
    (outside 3 i ->
       Z.testbit (register h HMC5883L_REGISTER_MODE (setMode h m wire)) i
       = Z.testbit (register h HMC5883L_REGISTER_MODE wire) i) /\
    (outside 28 i ->
       Z.testbit (register h HMC5883L_REGISTER_CONFIG_A (setOutputRate h r wire)) i
       = Z.testbit (register h HMC5883L_REGISTER_CONFIG_A wire) i) /\
    (outside 96 i ->
       Z.testbit (register h HMC5883L_REGISTER_CONFIG_A (setAveragedSamples h s wire)) i
       = Z.testbit (register h HMC5883L_REGISTER_CONFIG_A wire) i) /\
    getMode h (setMode h m wire) = Mode_value m /\
    getOutputRate h (setOutputRate h r wire) = OutputRate_value r /\
    Z.land (Z.shiftr (register h HMC5883L_REGISTER_CONFIG_A (setAveragedSamples h s wire)) 5) 3
    = Samples_value s /\
    register h HMC5883L_REGISTER_CONFIG_B (setFieldRange h f wire)
    = Z.shiftl (FieldRange_value f) 5 /\
    (0 <= j < 5 ->
       Z.testbit (register h HMC5883L_REGISTER_CONFIG_B (setFieldRange h f wire)) j = false).
Proof.
  intros h wire m r s f i j.
  pose proof (register_range h HMC5883L_REGISTER_MODE wire) as Rm.
  pose proof (register_range h HMC5883L_REGISTER_CONFIG_A wire) as Ra.
  destruct (mode_byte m _ Rm) as [M1 M2].
  destruct (rate_byte r _ Ra) as [R1 R2].
  destruct (samples_byte s _ Ra) as [S1 S2].
  split; [|split; [|split; [|split; [|split; [|split; [|split]]]]]].
  - intro Ho. rewrite setMode_register. apply (outside_bits _ _ 3); assumption.
  - intro Ho. rewrite setOutputRate_register. apply (outside_bits _ _ 28); assumption.
  - intro Ho. rewrite setAveragedSamples_register. apply (outside_bits _ _ 96); assumption.
  - rewrite getMode_register, setMode_register. exact M2.
  - rewrite getOutputRate_register, setOutputRate_register. exact R2.
  - rewrite setAveragedSamples_register. exact S2.
  - apply setFieldRange_register.
  - intro Hi. rewrite setFieldRange_register. apply Z.shiftl_spec_low. lia.
Qed.

(** C9 as stated fails for [setAveragedSamples]: on a register that holds
    148 (bit 7 and the rate bits 2 and 4 set) it writes 180, which differs
    from 148 in bit 5 only; the bits outside the field are preserved. *)
Lemma setAveragedSamples_keeps_other_bits :
  register fresh_hmc HMC5883L_REGISTER_CONFIG_A
    (setAveragedSamples fresh_hmc HMC5883L_SAMPLES_2
       (bus_with fresh_hmc HMC5883L_REGISTER_CONFIG_A 148)) = 180 /\
  register fresh_hmc HMC5883L_REGISTER_CONFIG_A
    (bus_with fresh_hmc HMC5883L_REGISTER_CONFIG_A 148) = 148 /\
  Z.lxor 180 148 = 32 /\
  Z.ldiff 180 96 = Z.ldiff 148 96.
Proof. repeat split. Qed.

(** C10. What [getFieldRange] returns after [setFieldRange]: the setter
    stores the three bits of the range in bits 5 to 7 of configuration
    register B, the getter masks the shifted register with 3 and so
    returns the two low bits of the range only. The four ranges up to
    2.5 Ga read back as themselves; 4 Ga, 4.7 Ga, 5.6 Ga and 8.1 Ga read
    back as 0.88 Ga, 1.3 Ga, 1.9 Ga and 2.5 Ga. *)
Theorem getFieldRange_after_setFieldRange :
  forall (h : MultiCompassHMC5883L) (wire : TwoWire) (f : HMC5883L_FieldRange),
    getFieldRange h (setFieldRange h f wire) = Z.land (FieldRange_value f) 3 /\
    getFieldRange h (setFieldRange h HMC5883L_FIELDRANGE_4GA wire)
    = FieldRange_value HMC5883L_FIELDRANGE_0_88GA /\
    getFieldRange h (setFieldRange h HMC5883L_FIELDRANGE_4_7GA wire)
    = FieldRange_value HMC5883L_FIELDRANGE_1_3GA /\
    getFieldRange h (setFieldRange h HMC5883L_FIELDRANGE_5_6GA wire)
    = FieldRange_value HMC5883L_FIELDRANGE_1_9GA /\
    getFieldRange h (setFieldRange h HMC5883L_FIELDRANGE_8_1GA wire)
    = FieldRange_value HMC5883L_FIELDRANGE_2_5GA /\
    getFieldRange h (setFieldRange h HMC5883L_FIELDRANGE_2_5GA wire)
    = FieldRange_value HMC5883L_FIELDRANGE_2_5GA /\
    getFieldRange h (setFieldRange h HMC5883L_FIELDRANGE_1_9GA wire)
    = FieldRange_value HMC5883L_FIELDRANGE_1_9GA /\
    getFieldRange h (setFieldRange h HMC5883L_FIELDRANGE_1_3GA wire)
    = FieldRange_value HMC5883L_FIELDRANGE_1_3GA /\
    getFieldRange h (setFieldRange h HMC5883L_FIELDRANGE_0_88GA wire)
    = FieldRange_value HMC5883L_FIELDRANGE_0_88GA.
Proof.
  intros h wire f.
  assert (H : forall g, getFieldRange h (setFieldRange h g wire)
                        = Z.land (FieldRange_value g) 3).
  { intro g. rewrite getFieldRange_register, setFieldRange_register.
    destruct g; reflexivity. }
  rewrite !H. repeat split.
Qed.

End Registers.

(** * Reading the calibration back *)

Section Readback.

Local Open Scope Z_scope.

Lemma pointer_bytes_length width p : length (pointer_bytes width p) = width.
Proof.
  revert p. induction width as [|w IH]; intro p; cbn; [reflexivity|].
  rewrite IH. reflexivity.
Qed.

Lemma getCalibration_bytes width p pointee :
  getCalibration width p pointee = pointer_bytes width p ++ skipn width pointee.
Proof.
  unfold getCalibration, memcpy. f_equal.
  apply firstn_all2. rewrite pointer_bytes_length. apply Nat.le_refl.
Qed.

(** C1. What the [getCalibration] of the source does: it is not a member
    of the compass and reads no compass. The record it is given keeps all
    its bytes but the first few, which receive the bytes of the pointer
    itself. So the record afterwards is fixed by the pointer and by its own
    earlier content: a zeroed record at address 0x3FFB0000 with four-byte
    pointers ends as 00 00 FB 3F followed by zeros; and however the bytes
    are decoded, there is a compass whose calibration they are not. *)
Theorem getCalibration_ignores_compass :
  forall (width : nat) (p : Z) (pointee : list Z)
         (decode : list Z -> CompassSetting.t),
    getCalibration width p pointee = pointer_bytes width p ++ skipn width pointee /\
    getCalibration 4 0x3FFB0000 zeroed_record = [0; 0; 251; 63] ++ repeat 0 36 /\
    exists c : MultiCompass,
      ~ same_calibration (decode (getCalibration width p pointee)) (settings c).
Proof.
  intros width p pointee decode. split; [apply getCalibration_bytes|].
  split; [reflexivity|].
  destruct (Req_dec (CompassSetting.minX (decode (getCalibration width p pointee))) 100000)
    as [He|Hne].
  - exists (setCalibration all_zero (MultiCompass_new 0 0)).
    intros (Hx & _). cbn in Hx. rewrite He in Hx. lra.
  - exists (MultiCompass_new 0 0). intros (Hx & _). cbn in Hx. contradiction.
Qed.

End Readback.

(** * The theorems at concrete inputs *)

Section Instances.

Import CompassSetting CompassData.

(** A first sample of (10, -20, 30) on the fresh device, after a call
    with a sample beyond the sentinels. *)
Lemma calibration_bounds_monotone_first_sample :
  within_sentinels (sample 10 (-20) 30) /\
  widened (settings (compass fresh_hmc))
          (settings (compass (calibrated fresh_hmc (sample 150000 0 0) (steady 0)))) /\
  widened (settings (compass (fst (calibrate_all fresh_hmc [sample 150000 0 0] (steady 0)))))
          (settings (compass (fst
             (calibrate_all fresh_hmc ([sample 150000 0 0] ++ [sample 10 (-20) 30])
                            (steady 0))))) /\
  ordered (settings (compass (fst
     (calibrate_all (MultiCompassHMC5883L_new 0 0)
                    ([sample 150000 0 0] ++ sample 10 (-20) 30 :: []) (steady 0))))) /\
  pinned_to (settings (compass
     (calibrated (MultiCompassHMC5883L_new 0 0) (sample 10 (-20) 30) (steady 0))))
            (sample 10 (-20) 30).
Proof.
  assert (H : within_sentinels (sample 10 (-20) 30)).
  { unfold within_sentinels. cbn. repeat split; lra. }
  destruct (calibration_bounds_monotone 0 0 fresh_hmc [sample 150000 0 0]
              [sample 10 (-20) 30] [] (sample 150000 0 0) (steady 0)) as (A & B & _).
  destruct (calibration_bounds_monotone 0 0 fresh_hmc [sample 150000 0 0]
              [sample 10 (-20) 30] [] (sample 10 (-20) 30) (steady 0)) as (_ & _ & C).
  destruct (C H) as (C1 & C2).
  exact (conj H (conj A (conj B (conj C1 C2)))).
Defined.

(** The seeded device, a sample inside its bounds, the clock at 1000: the
    difference equals the period and the call is not complete. *)
Lemma calibration_complete_iff_at_threshold :
  (- 2 ^ 62 <= lastCalibration (settings (compass seeded_hmc)) <= 2 ^ 62)%Z /\
  ((complete seeded_hmc (sample 0 0 0) (steady 1000) = true <->
    (final_reading seeded_hmc (sample 0 0 0) (steady 1000)
     - stamp_after seeded_hmc (sample 0 0 0) (steady 1000)
     > calibrationPeriod seeded_hmc)%Z) /\
   ((new_extreme (settings (compass seeded_hmc)) (sample 0 0 0) /\
     exists k, (k < 6)%nat /\
               stamp_after seeded_hmc (sample 0 0 0) (steady 1000) = uint32 (steady 1000 k) /\
               final_reading seeded_hmc (sample 0 0 0) (steady 1000)
               = uint32 (steady 1000 (S k))) \/
    (~ new_extreme (settings (compass seeded_hmc)) (sample 0 0 0) /\
     stamp_after seeded_hmc (sample 0 0 0) (steady 1000)
     = lastCalibration (settings (compass seeded_hmc)) /\
     final_reading seeded_hmc (sample 0 0 0) (steady 1000) = uint32 (steady 1000 O))) /\
   ((final_reading seeded_hmc (sample 0 0 0) (steady 1000)
     - stamp_after seeded_hmc (sample 0 0 0) (steady 1000)
     = calibrationPeriod seeded_hmc)%Z ->
    complete seeded_hmc (sample 0 0 0) (steady 1000) = false) /\
   calibrationPeriod (MultiCompassHMC5883L_new 0 0) = 1000%Z).
Proof.
  assert (H : (- 2 ^ 62 <= lastCalibration (settings (compass seeded_hmc)) <= 2 ^ 62)%Z).
  { cbn. lia. }
  split; [exact H|].
  exact (calibration_complete_iff 0 0 seeded_hmc (sample 0 0 0) (steady 1000) H).
Defined.

(** Bounds of -500 and 500, raw sample (250, -250, 0). *)
Lemma scaleData_formula_symmetric :
  ((Rabs 500 + Rabs (-500)) / 2 <> 0)%R /\
  scaleData (setCalibration symmetric_500 (MultiCompass_new 0 0)) (sample 250 (-250) 0)
  = Some (CompassData.mk 250 (-250) 0
            ((250 - (500 + -500) / 2) / ((Rabs 500 + Rabs (-500)) / 2))
            ((-250 - (500 + -500) / 2) / ((Rabs 500 + Rabs (-500)) / 2))
            ((0 - (500 + -500) / 2) / ((Rabs 500 + Rabs (-500)) / 2))
            0).
Proof.
  assert (H : ((Rabs 500 + Rabs (-500)) / 2 <> 0)%R).
  { intro E. apply half_abs_sum_zero in E. destruct E as [E _]. lra. }
  split; [exact H|].
  exact (proj1 scaleData_formula
           (setCalibration symmetric_500 (MultiCompass_new 0 0)) (sample 250 (-250) 0)
           H H H).
Defined.


(** A fresh compass, and one seeded with zero bounds. *)
Lemma scaleData_fresh_divisor_unit_sample :
  divisorX (settings (MultiCompass_new 0 0)) = 100000%R /\
  scaleData (setCalibration all_zero (MultiCompass_new 0 0)) (sample 1 1 1) = None.
Proof.
  split.
  - exact (proj1 (scaleData_fresh_divisor 0 0 (MultiCompass_new 0 0) (sample 1 1 1))).
  - exact (proj2 (proj2 (proj2 (proj2 (proj2
      (scaleData_fresh_divisor 0 0 (MultiCompass_new 0 0) (sample 1 1 1))))))).
Defined.

(** Seeded with -500 and 500, a sample at the origin, the clock at 5000. *)
Lemma seeded_calibration_complete_at_origin :
  ~ new_extreme symmetric_500 (sample 0 0 0) /\
  (uint32 (steady 5000 O) > calibrationPeriod fresh_hmc)%Z /\
  (same_calibration (settings (compass (seed fresh_hmc symmetric_500))) symmetric_500 /\
   lastCalibration (settings (compass (seed fresh_hmc symmetric_500))) = 0%Z /\
   complete (seed fresh_hmc symmetric_500) (sample 0 0 0) (steady 5000) = true).
Proof.
  assert (Hn : ~ new_extreme symmetric_500 (sample 0 0 0)).
  { unfold new_extreme. cbn. intros [H|[H|[H|[H|[H|H]]]]]; lra. }
  assert (Hc : (uint32 (steady 5000 O) > calibrationPeriod fresh_hmc)%Z) by reflexivity.
  split; [exact Hn|]. split; [exact Hc|].
  exact (seeded_calibration_complete fresh_hmc symmetric_500 (sample 0 0 0) (steady 5000)
           Hn Hc).
Defined.

(** Bit 7 lies outside every field; bit 0 is one of the low bits of
    configuration register B. *)
Lemma setters_preserve_other_bits_bit_7 :
  outside 3 7 /\ outside 28 7 /\ outside 96 7 /\ (0 <= 0 < 5)%Z /\
  Z.testbit (register fresh_hmc HMC5883L_REGISTER_MODE
               (setMode fresh_hmc HMC5883L_MODE_IDLE
                  (bus_with fresh_hmc HMC5883L_REGISTER_MODE 255))) 7
  = Z.testbit (register fresh_hmc HMC5883L_REGISTER_MODE
                 (bus_with fresh_hmc HMC5883L_REGISTER_MODE 255)) 7 /\
  Z.testbit (register fresh_hmc HMC5883L_REGISTER_CONFIG_A
               (setOutputRate fresh_hmc HMC5883L_OUTPUTRATE_75HZ
                  (bus_with fresh_hmc HMC5883L_REGISTER_MODE 255))) 7
  = Z.testbit (register fresh_hmc HMC5883L_REGISTER_CONFIG_A
                 (bus_with fresh_hmc HMC5883L_REGISTER_MODE 255)) 7 /\
  Z.testbit (register fresh_hmc HMC5883L_REGISTER_CONFIG_A
               (setAveragedSamples fresh_hmc HMC5883L_SAMPLES_2
                  (bus_with fresh_hmc HMC5883L_REGISTER_MODE 255))) 7
  = Z.testbit (register fresh_hmc HMC5883L_REGISTER_CONFIG_A
                 (bus_with fresh_hmc HMC5883L_REGISTER_MODE 255)) 7 /\
  Z.testbit (register fresh_hmc HMC5883L_REGISTER_CONFIG_B
               (setFieldRange fresh_hmc HMC5883L_FIELDRANGE_8_1GA
                  (bus_with fresh_hmc HMC5883L_REGISTER_MODE 255))) 0
  = false.
Proof.
  assert (H3 : outside 3 7) by reflexivity.
  assert (H28 : outside 28 7) by reflexivity.
  assert (H96 : outside 96 7) by reflexivity.
  assert (H0 : (0 <= 0 < 5)%Z) by lia.
  destruct (setters_preserve_other_bits fresh_hmc
              (bus_with fresh_hmc HMC5883L_REGISTER_MODE 255)
              HMC5883L_MODE_IDLE HMC5883L_OUTPUTRATE_75HZ HMC5883L_SAMPLES_2
              HMC5883L_FIELDRANGE_8_1GA 7 0)
    as (A & B & C & _ & _ & _ & _ & D).
  exact (conj H3 (conj H28 (conj H96 (conj H0
           (conj (A H3) (conj (B H28) (conj (C H96) (D H0)))))))).
Defined.

End Instances.

(** * Reading the axes *)

Section Readout.

Import CompassSetting CompassData.

Local Open Scope Z_scope.

Lemma int16_fits z : fits_int16 (int16 z).
Proof.
  unfold fits_int16, int16.
  pose proof (Z.mod_pos_bound (z + 2 ^ 15) (2 ^ 16) eq_refl). lia.
Qed.

(** Two bytes joined by shift and or are the number they spell out. *)
Lemma join_bytes a b :
  0 <= a < 256 -> 0 <= b < 256 -> Z.lor (Z.shiftl a 8) b = 256 * a + b.
Proof.
  intros Ha Hb.
  pose proof (byte_forall
    (fun a => forallb (fun b => Z.lor (Z.shiftl a 8) b =? 256 * a + b) bytes)) as H.
  specialize (H ltac:(vm_compute; reflexivity) a Ha). cbv beta in H.
  rewrite forallb_forall in H. apply Z.eqb_eq, H.
  unfold bytes. apply in_map_iff. exists (Z.to_nat b). split; [lia|].
  apply in_seq. lia.
Qed.

Lemma int16_of_word v :
  0 <= v < 65536 -> int16 v = if v <? 32768 then v else v - 65536.
Proof.
  intro Hv. unfold int16. change (2 ^ 15) with 32768. change (2 ^ 16) with 65536.
  destruct (Z.ltb_spec v 32768).
  - rewrite Z.mod_small; lia.
  - replace (v + 32768) with (v - 32768 + 1 * 65536) by lia.
    rewrite Z.mod_add by discriminate. rewrite Z.mod_small; lia.
Qed.

Lemma split_word v :
  fits_int16 v -> 256 * high_byte v + low_byte v = v mod 65536.
Proof.
  intros _. unfold high_byte, low_byte, uint8.
  rewrite Z.shiftr_div_pow2 by discriminate. change (2 ^ 8) with 256.
  change 65536 with (256 * 256).
  rewrite (Z.rem_mul_r v 256 256) by lia. lia.
Qed.

Lemma int16_mod v : fits_int16 v -> int16 (v mod 65536) = v.
Proof.
  unfold fits_int16. change (2 ^ 15) with 32768. intro Hv.
  unfold int16. change (2 ^ 15) with 32768. change (2 ^ 16) with 65536.
  rewrite Zplus_mod_idemp_l.
  rewrite Z.mod_small; lia.
Qed.

Lemma readTwoBytes_first_high c reg wire :
  readTwoBytes c reg true wire
  = int16 (256 * uint8 (wire (adress c) (uint8 reg))
           + uint8 (wire (adress c) (uint8 reg + 1))).
Proof.
  unfold readTwoBytes. cbv zeta. cbn [fst snd].
  rewrite join_bytes by apply uint8_range. reflexivity.
Qed.

Lemma readTwoBytes_first_low c reg wire :
  readTwoBytes c reg false wire
  = int16 (256 * uint8 (wire (adress c) (uint8 reg + 1))
           + uint8 (wire (adress c) (uint8 reg))).
Proof.
  unfold readTwoBytes. cbv zeta. cbn [fst snd].
  rewrite join_bytes by apply uint8_range. reflexivity.
Qed.

Lemma readTwoBytes_fits c reg LSB wire : fits_int16 (readTwoBytes c reg LSB wire).
Proof. unfold readTwoBytes. cbv zeta. destruct LSB; apply int16_fits. Qed.

(** X1. [readTwoBytes] with [LSB = true] takes the first byte it receives
    as the high byte, with [LSB = false] as the low byte; the result is
    the signed 16-bit value of the two bytes, negative exactly when the
    high byte is 128 or more. *)
Theorem readTwoBytes_byte_order :
  forall (c : MultiCompass) (reg : Z) (LSB : bool) (wire : TwoWire),
    readTwoBytes c reg true wire
    = int16 (256 * readByte c reg wire + uint8 (wire (adress c) (uint8 reg + 1))) /\
    readTwoBytes c reg false wire
    = int16 (256 * uint8 (wire (adress c) (uint8 reg + 1)) + readByte c reg wire) /\
    - 32768 <= readTwoBytes c reg LSB wire <= 32767 /\
    ((readTwoBytes c reg true wire < 0 /\ 128 <= readByte c reg wire) \/
     (0 <= readTwoBytes c reg true wire /\ readByte c reg wire < 128)) /\
    readTwoBytes c reg true wire mod 256 = uint8 (wire (adress c) (uint8 reg + 1)).
Proof.
  intros c reg LSB wire. unfold readByte.
  pose proof (uint8_range (wire (adress c) (uint8 reg))) as Ha.
  pose proof (uint8_range (wire (adress c) (uint8 reg + 1))) as Hb.
  split; [apply readTwoBytes_first_high|].
  split; [apply readTwoBytes_first_low|].
  split.
  - pose proof (readTwoBytes_fits c reg LSB wire) as Hf. unfold fits_int16 in Hf.
    change (2 ^ 15) with 32768 in Hf. lia.
  - rewrite readTwoBytes_first_high, int16_of_word by lia.
    set (a := uint8 (wire (adress c) (uint8 reg))) in *.
    set (b := uint8 (wire (adress c) (uint8 reg + 1))) in *.
    destruct (Z.ltb_spec (256 * a + b) 32768); split.
    + right. lia.
    + replace (256 * a + b) with (b + a * 256) by lia.
      rewrite Z.mod_add by discriminate. apply Z.mod_small. lia.
    + left. lia.
    + replace (256 * a + b - 65536) with (b + (a - 256) * 256) by lia.
      rewrite Z.mod_add by discriminate. apply Z.mod_small. lia.
Qed.

Lemma readTwoBytes_decodes c reg wire v :
  fits_int16 v ->
  wire (adress c) (uint8 reg) = high_byte v ->
  wire (adress c) (uint8 reg + 1) = low_byte v ->
  readTwoBytes c reg true wire = v.
Proof.
  intros Hv Hh Hl. rewrite readTwoBytes_first_high, Hh, Hl.
  unfold high_byte, low_byte. rewrite !uint8_idem.
  fold (high_byte v). fold (low_byte v).
  rewrite split_word by exact Hv. apply int16_mod, Hv.
Qed.

Lemma bus_with_sample_holds h x y z : holds_sample h (bus_with_sample h x y z) x y z.
Proof.
  unfold holds_sample, bus_with_sample, poke. cbv zeta.
  rewrite !Z.eqb_refl. cbn. repeat split.
Qed.

(** X2. When the output registers of the compass hold a measurement in
    16-bit two's complement, high byte first, X in registers 3 and 4, Z in
    5 and 6, Y in 7 and 8, [getData] stores exactly that measurement in
    the raw fields and leaves the scaled fields and the heading as they
    were. *)
Theorem getData_decodes :
  forall (h : MultiCompassHMC5883L) (wire : TwoWire) (data : CompassData.t) (x y z : Z),
    fits_int16 x -> fits_int16 y -> fits_int16 z ->
    holds_sample h wire x y z ->
    getData h wire data
    = CompassData.mk (IZR x) (IZR y) (IZR z)
        (scaledX data) (scaledY data) (scaledZ data) (CompassData.heading data).
Proof.
  intros h wire data x y z Hx Hy Hz (X1 & X2 & Z1 & Z2 & Y1 & Y2).
  unfold getData.
  rewrite (readTwoBytes_decodes _ _ _ x Hx X1 X2).
  rewrite (readTwoBytes_decodes _ _ _ y Hy Y1 Y2).
  rewrite (readTwoBytes_decodes _ _ _ z Hz Z1 Z2).
  reflexivity.
Qed.

Lemma getData_decodes_example :
  fits_int16 250 /\ fits_int16 (-250) /\ fits_int16 0 /\
  holds_sample fresh_hmc (bus_with_sample fresh_hmc 250 (-250) 0) 250 (-250) 0 /\
  getData fresh_hmc (bus_with_sample fresh_hmc 250 (-250) 0) (sample 1 2 3)
  = CompassData.mk (IZR 250) (IZR (-250)) (IZR 0) 0 0 0 0.
Proof.
  assert (Hx : fits_int16 250) by (unfold fits_int16; lia).
  assert (Hy : fits_int16 (-250)) by (unfold fits_int16; lia).
  assert (Hz : fits_int16 0) by (unfold fits_int16; lia).
  assert (Hs : holds_sample fresh_hmc (bus_with_sample fresh_hmc 250 (-250) 0) 250 (-250) 0)
    by apply bus_with_sample_holds.
  exact (conj Hx (conj Hy (conj Hz (conj Hs
    (getData_decodes fresh_hmc (bus_with_sample fresh_hmc 250 (-250) 0) (sample 1 2 3)
       250 (-250) 0 Hx Hy Hz Hs))))).
Defined.

Lemma getData_within_sentinels h wire data : within_sentinels (getData h wire data).
Proof.
  unfold within_sentinels, getData. cbn [rawX rawY rawZ].
  assert (H : forall reg, (-100000 <= IZR (readTwoBytes (compass h) reg true wire) <= 100000)%R).
  { intro reg. pose proof (readTwoBytes_fits (compass h) reg true wire) as Hf.
    unfold fits_int16 in Hf. change (2 ^ 15) with 32768 in Hf.
    split; apply IZR_le; lia. }
  repeat split; apply H.
Qed.

(** X3. Whatever the bus holds, a sample read by [getData] lies between
    the sentinels of the constructor; fed as the first sample to a freshly
    constructed device it becomes the minimum and the maximum of every
    axis. Its raw values lie between -32768 and 32767. *)
Theorem getData_sample_replaces_sentinels :
  forall (ts a : Z) (h : MultiCompassHMC5883L) (wire : TwoWire) (data : CompassData.t)
         (clk : Clock),
    within_sentinels (getData h wire data) /\
    pinned_to (settings (compass
                 (calibrated (MultiCompassHMC5883L_new ts a) (getData h wire data) clk)))
              (getData h wire data) /\
    (-32768 <= rawX (getData h wire data) <= 32767)%R /\
    (-32768 <= rawY (getData h wire data) <= 32767)%R /\
    (-32768 <= rawZ (getData h wire data) <= 32767)%R.
Proof.
  intros ts a h wire data clk.
  split; [apply getData_within_sentinels|].
  split; [apply first_sample_replaces_sentinels, getData_within_sentinels|].
  assert (H : forall reg, (-32768 <= IZR (readTwoBytes (compass h) reg true wire) <= 32767)%R).
  { intro reg. pose proof (readTwoBytes_fits (compass h) reg true wire) as Hf.
    unfold fits_int16 in Hf. change (2 ^ 15) with 32768 in Hf.
    split; apply IZR_le; lia. }
  unfold getData. cbn [rawX rawY rawZ]. repeat split; apply H.
Qed.

End Readout.

(** * The range of the scaled values *)

Section ScaledRange.

Import CompassSetting CompassData.

Local Open Scope R_scope.

Lemma ratio_unit t D : 0 < D -> - D <= t <= D -> -1 <= t / D <= 1.
Proof.
  intros HD Ht. unfold Rdiv.
  pose proof (Rinv_0_lt_compat D HD) as Hi.
  assert (HDi : D * / D = 1) by (field; lra).
  split; nra.
Qed.

Lemma half_abs_sum_pos hi lo : (Rabs hi + Rabs lo) / 2 <> 0 -> 0 < (Rabs hi + Rabs lo) / 2.
Proof.
  intro Hn. pose proof (Rabs_pos hi). pose proof (Rabs_pos lo). lra.
Qed.

(** The distance of an enclosed value from the midpoint is at most the
    divisor of [scaleData]. *)
Lemma centred_within_divisor lo hi raw :
  lo <= raw <= hi ->
  - ((Rabs hi + Rabs lo) / 2) <= raw - (hi + lo) / 2 <= (Rabs hi + Rabs lo) / 2.
Proof.
  intro Hr.
  pose proof (Rle_abs hi) as H1.
  pose proof (Rle_abs (- lo)) as H2. rewrite Rabs_Ropp in H2.
  lra.
Qed.

Lemma scaled_axis_unit lo hi raw :
  (Rabs hi + Rabs lo) / 2 <> 0 -> lo <= raw <= hi ->
  -1 <= (raw - (hi + lo) / 2) / ((Rabs hi + Rabs lo) / 2) <= 1.
Proof.
  intros Hn Hr. apply ratio_unit.
  - apply half_abs_sum_pos, Hn.
  - apply centred_within_divisor, Hr.
Qed.

(** X4. When the bounds enclose the raw sample and no axis has both
    bounds zero, [scaleData] succeeds, every scaled value lies between -1
    and 1, and the raw values and the heading are as before. *)
Theorem scaleData_unit_range :
  forall (c : MultiCompass) (d : CompassData.t),
    scalable (settings c) ->
    encloses (settings c) d ->
    exists d' : CompassData.t,
      scaleData c d = Some d' /\ unit_range d' /\ same_raw d' d.
Proof.
  intros c d (Dx & Dy & Dz) (Ex & Ey & Ez).
  rewrite scaleData_some by assumption.
  eexists. split; [reflexivity|]. split.
  - unfold unit_range. cbn [scaledX scaledY scaledZ].
    unfold divisorX, divisorY, divisorZ in *.
    split; [|split]; apply scaled_axis_unit; assumption.
  - unfold same_raw. cbn. repeat split.
Qed.

Lemma straddling_divisor lo hi :
  lo <= 0 <= hi -> (Rabs hi + Rabs lo) / 2 = (hi - lo) / 2.
Proof.
  intros [Hl Hh]. rewrite (Rabs_pos_eq hi) by exact Hh.
  rewrite <- (Rabs_Ropp lo), (Rabs_pos_eq (- lo)) by lra. lra.
Qed.

(** X5. When zero lies between the bounds of every axis and no axis has
    both bounds zero, the divisor of each axis is half the distance of its
    bounds: the sample made of the three maxima is scaled to (1, 1, 1) and
    the sample made of the three minima to (-1, -1, -1). *)
Theorem scaleData_endpoints :
  forall (c : MultiCompass),
    straddles (settings c) ->
    scalable (settings c) ->
    divisorX (settings c) = (maxX (settings c) - minX (settings c)) / 2 /\
    divisorY (settings c) = (maxY (settings c) - minY (settings c)) / 2 /\
    divisorZ (settings c) = (maxZ (settings c) - minZ (settings c)) / 2 /\
    scaleData c (sample (maxX (settings c)) (maxY (settings c)) (maxZ (settings c)))
    = Some (CompassData.mk (maxX (settings c)) (maxY (settings c)) (maxZ (settings c))
              1 1 1 0) /\
    scaleData c (sample (minX (settings c)) (minY (settings c)) (minZ (settings c)))
    = Some (CompassData.mk (minX (settings c)) (minY (settings c)) (minZ (settings c))
              (-1) (-1) (-1) 0).
Proof.
  intros c (Sx & Sy & Sz) (Dx & Dy & Dz).
  assert (Ex : divisorX (settings c) = (maxX (settings c) - minX (settings c)) / 2)
    by (apply straddling_divisor, Sx).
  assert (Ey : divisorY (settings c) = (maxY (settings c) - minY (settings c)) / 2)
    by (apply straddling_divisor, Sy).
  assert (Ez : divisorZ (settings c) = (maxZ (settings c) - minZ (settings c)) / 2)
    by (apply straddling_divisor, Sz).
  split; [exact Ex|]. split; [exact Ey|]. split; [exact Ez|].
  rewrite !scaleData_some by assumption. cbn [rawX rawY rawZ sample CompassData.heading].
  rewrite Ex, Ey, Ez in *.
  split; do 2 f_equal; field; lra.
Qed.

(** X6. When both bounds of the X axis are positive, the divisor is the
    midpoint of the bounds, not half their distance: a raw value equal to
    the maximum is scaled to (max - min) / (max + min), which is below 1. *)
Theorem scaleData_same_sign_bounds :
  forall (c : MultiCompass) (d : CompassData.t),
    0 < minX (settings c) <= maxX (settings c) ->
    scalable (settings c) ->
    rawX d = maxX (settings c) ->
    exists d' : CompassData.t,
      scaleData c d = Some d' /\
      divisorX (settings c) = (maxX (settings c) + minX (settings c)) / 2 /\
      scaledX d' = (maxX (settings c) - minX (settings c))
                   / (maxX (settings c) + minX (settings c)) /\
      0 <= scaledX d' < 1.
Proof.
  intros c d [Hlo Hhi] (Dx & Dy & Dz) Hr.
  assert (Ex : divisorX (settings c) = (maxX (settings c) + minX (settings c)) / 2).
  { unfold divisorX. rewrite !Rabs_pos_eq by lra. reflexivity. }
  rewrite scaleData_some by assumption.
  eexists. split; [reflexivity|]. split; [exact Ex|].
  cbn [scaledX]. rewrite Ex, Hr.
  assert (Hq : (maxX (settings c) - (maxX (settings c) + minX (settings c)) / 2)
               / ((maxX (settings c) + minX (settings c)) / 2)
               = (maxX (settings c) - minX (settings c))
                 / (maxX (settings c) + minX (settings c)))
    by (field; lra).
  rewrite Hq. split; [reflexivity|].
  set (hi := maxX (settings c)) in *. set (lo := minX (settings c)) in *.
  unfold Rdiv.
  assert (Hs : 0 < hi + lo) by lra.
  pose proof (Rinv_0_lt_compat _ Hs) as Hi.
  assert (H1 : (hi + lo) * / (hi + lo) = 1) by (field; lra).
  split; nra.
Qed.

End ScaledRange.

(** * Sequences of calibration calls *)

Section CalibrationRuns.

Import CompassSetting CompassData.

Local Open Scope R_scope.

Lemma widened_encloses s s' d : widened s s' -> encloses s d -> encloses s' d.
Proof.
  unfold widened, encloses. intros Hw He.
  decompose [and] Hw. decompose [and] He. repeat split; lra.
Qed.

Lemma widened_straddles s s' : widened s s' -> straddles s -> straddles s'.
Proof.
  unfold widened, straddles. intros Hw He.
  decompose [and] Hw. decompose [and] He. repeat split; lra.
Qed.

(** X7. After any sequence of calibration calls, from any state of the
    device, the bounds enclose every sample of the sequence. *)
Theorem calibrate_all_encloses :
  forall (h : MultiCompassHMC5883L) (samples : list CompassData.t) (clk : Clock)
         (d : CompassData.t),
    In d samples ->
    encloses (settings (compass (fst (calibrate_all h samples clk)))) d.
Proof.
  intros h samples clk d Hin.
  destruct (in_split d samples Hin) as (before & after & ->).
  rewrite calibrate_all_app, calibrate_all_cons.
  eapply widened_encloses; [apply calibrate_all_widened|].
  apply calibration_encloses.
Qed.

Lemma calibrate_all_encloses_pair :
  In (sample 10 (-20) 30) [sample 1 2 3; sample 10 (-20) 30] /\
  encloses (settings (compass (fst
      (calibrate_all fresh_hmc [sample 1 2 3; sample 10 (-20) 30] (steady 0)))))
    (sample 10 (-20) 30).
Proof.
  assert (H : In (sample 10 (-20) 30) [sample 1 2 3; sample 10 (-20) 30])
    by (right; left; reflexivity).
  exact (conj H (calibrate_all_encloses fresh_hmc [sample 1 2 3; sample 10 (-20) 30]
                   (steady 0) (sample 10 (-20) 30) H)).
Defined.

(** A sample that the bounds enclose fires none of the six guards. *)
Lemma update_bounds_enclosed d st : encloses (fst st) d -> update_bounds d st = st.
Proof.
  intros (Ex & Ey & Ez). unfold update_bounds.
  assert (H1 : update_minX d st = st).
  { unfold update_minX. destruct (Rlt_dec (rawX d) (minX (fst st))); [exfalso; lra|].
    reflexivity. }
  rewrite H1.
  assert (H2 : update_minY d st = st).
  { unfold update_minY. destruct (Rlt_dec (rawY d) (minY (fst st))); [exfalso; lra|].
    reflexivity. }
  rewrite H2.
  assert (H3 : update_minZ d st = st).
  { unfold update_minZ. destruct (Rlt_dec (rawZ d) (minZ (fst st))); [exfalso; lra|].
    reflexivity. }
  rewrite H3.
  assert (H4 : update_maxX d st = st).
  { unfold update_maxX. destruct (Rgt_dec (rawX d) (maxX (fst st))); [exfalso; lra|].
    reflexivity. }
  rewrite H4.
  assert (H5 : update_maxY d st = st).
  { unfold update_maxY. destruct (Rgt_dec (rawY d) (maxY (fst st))); [exfalso; lra|].
    reflexivity. }
  rewrite H5.
  unfold update_maxZ. destruct (Rgt_dec (rawZ d) (maxZ (fst st))); [exfalso; lra|].
  reflexivity.
Qed.

Lemma calibrated_enclosed h d clk :
  encloses (settings (compass h)) d -> calibrated h d clk = h.
Proof.
  intro He. unfold calibrated, calibration.
  rewrite update_bounds_enclosed by exact He.
  cbn. destruct h as [[s a] p]. reflexivity.
Qed.

(** X8. Samples that the bounds already enclose change nothing: after any
    sequence of them the device is exactly as before, with the same
    bounds, declination and time stamp. *)
Theorem calibrate_all_enclosed_unchanged :
  forall (h : MultiCompassHMC5883L) (samples : list CompassData.t) (clk : Clock),
    Forall (encloses (settings (compass h))) samples ->
    fst (calibrate_all h samples clk) = h.
Proof.
  intros h samples. induction samples as [|d rest IH]; intros clk Hall.
  - reflexivity.
  - inversion Hall as [|d0 rest0 Hd Hrest]; subst.
    rewrite calibrate_all_cons, (calibrated_enclosed h d clk Hd).
    apply IH, Hrest.
Qed.

Lemma calibrate_all_enclosed_unchanged_seeded :
  Forall (encloses (settings (compass seeded_hmc)))
         [sample 0 0 0; sample 100 (-100) 500] /\
  fst (calibrate_all seeded_hmc [sample 0 0 0; sample 100 (-100) 500] (steady 0))
  = seeded_hmc.
Proof.
  assert (H : Forall (encloses (settings (compass seeded_hmc)))
                     [sample 0 0 0; sample 100 (-100) 500]).
  { apply Forall_cons; [|apply Forall_cons; [|apply Forall_nil]];
      unfold encloses; cbn; lra. }
  exact (conj H (calibrate_all_enclosed_unchanged seeded_hmc
                   [sample 0 0 0; sample 100 (-100) 500] (steady 0) H)).
Defined.

Lemma calibration_frame h d clk :
  CompassSetting.heading (settings (compass (calibrated h d clk)))
  = CompassSetting.heading (settings (compass h)) /\
  adress (compass (calibrated h d clk)) = adress (compass h) /\
  calibrationPeriod (calibrated h d clk) = calibrationPeriod h.
Proof.
  split; [|split; reflexivity].
  rewrite calibration_settings.
  apply (update_bounds_fields d (settings (compass h), clk)).
Qed.

(** X9. No sequence of calibration calls changes the declination, the bus
    address or the calibration period of the device. *)
Theorem calibrate_all_frame :
  forall (h : MultiCompassHMC5883L) (samples : list CompassData.t) (clk : Clock),
    CompassSetting.heading (settings (compass (fst (calibrate_all h samples clk))))
    = CompassSetting.heading (settings (compass h)) /\
    adress (compass (fst (calibrate_all h samples clk))) = adress (compass h) /\
    calibrationPeriod (fst (calibrate_all h samples clk)) = calibrationPeriod h.
Proof.
  intros h samples. revert h. induction samples as [|d rest IH]; intros h clk.
  - repeat split.
  - rewrite calibrate_all_cons.
    destruct (IH (calibrated h d clk) (snd (calibration h d clk))) as (I1 & I2 & I3).
    destruct (calibration_frame h d clk) as (F1 & F2 & F3).
    rewrite I1, I2, I3, F1, F2, F3. repeat split.
Qed.

Lemma stamp_in_range_calibrated h d clk :
  stamp_in_range (settings (compass h)) ->
  stamp_in_range (settings (compass (calibrated h d clk))).
Proof.
  unfold stamp_in_range. intro Hr.
  destruct (Nat.eq_dec (updates (settings (compass h)) d) O) as [Hu|Hu].
  - assert (Hn : ~ new_extreme (settings (compass h)) d)
      by (intro Hn; apply updates_new_extreme in Hn; contradiction).
    destruct (calibration_keeps_stamp h d clk Hn) as [Hs _].
    unfold stamp_after in Hs. rewrite Hs. exact Hr.
  - apply updates_new_extreme in Hu.
    destruct (calibration_refreshes h d clk Hu) as (k & _ & Hs & _).
    unfold stamp_after in Hs. rewrite Hs. apply uint32_range.
Qed.

Lemma stamp_in_range_calibrate_all h samples clk :
  stamp_in_range (settings (compass h)) ->
  stamp_in_range (settings (compass (fst (calibrate_all h samples clk)))).
Proof.
  revert h clk. induction samples as [|d rest IH]; intros h clk Hr.
  - exact Hr.
  - rewrite calibrate_all_cons. apply IH, stamp_in_range_calibrated, Hr.
Qed.

Lemma complete_exact h d clk :
  stamp_in_range (settings (compass h)) ->
  complete h d clk
  = (final_reading h d clk - stamp_after h d clk >? calibrationPeriod h)%Z.
Proof.
  intro Hr. rewrite complete_unfold. f_equal. apply int64_small.
  pose proof (stamp_in_range_calibrated h d clk Hr) as Hs.
  unfold stamp_in_range in Hs. fold (stamp_after h d clk) in Hs.
  pose proof (final_reading_range h d clk) as Hf.
  change (2 ^ 32)%Z with 4294967296%Z in *.
  change (2 ^ 63)%Z with 9223372036854775808%Z. lia.
Qed.

(** X10. Once the calibration has been seeded with [setCalibration], the
    time stamp is a value of [millis()] after every further calibration
    call, whatever the samples and the clock; the 64-bit difference of the
    final comparison therefore never wraps and the flag of the next call
    is the plain comparison of that difference with the period. *)
Theorem seeded_stamp_in_range :
  forall (h : MultiCompassHMC5883L) (r : CompassSetting.t)
         (samples : list CompassData.t) (clk : Clock) (d : CompassData.t) (clk' : Clock),
    stamp_in_range (settings (compass (fst (calibrate_all (seed h r) samples clk)))) /\
    complete (fst (calibrate_all (seed h r) samples clk)) d clk'
    = (final_reading (fst (calibrate_all (seed h r) samples clk)) d clk'
       - stamp_after (fst (calibrate_all (seed h r) samples clk)) d clk'
       >? calibrationPeriod h)%Z.
Proof.
  intros h r samples clk d clk'.
  assert (Hs : stamp_in_range (settings (compass (seed h r))))
    by (unfold stamp_in_range; cbn; lia).
  pose proof (stamp_in_range_calibrate_all _ samples clk Hs) as Hr.
  split; [exact Hr|].
  rewrite complete_exact by exact Hr.
  destruct (calibrate_all_frame (seed h r) samples clk) as (_ & _ & ->).
  reflexivity.
Qed.

(** X11. A call that finds a new extreme is never complete when two
    successive clock readings differ by at most the period: the extreme
    has just been stamped. *)
Theorem new_extreme_not_complete :
  forall (h : MultiCompassHMC5883L) (d : CompassData.t) (clk : Clock),
    slow_clock (calibrationPeriod h) clk ->
    new_extreme (settings (compass h)) d ->
    complete h d clk = false.
Proof.
  intros h d clk Hslow Hn.
  destruct (calibration_refreshes h d clk Hn) as (k & _ & Hs & Hf).
  rewrite complete_unfold, Hs, Hf.
  pose proof (uint32_range (clk k)) as Hk.
  pose proof (uint32_range (clk (S k))) as HSk.
  specialize (Hslow k).
  change (2 ^ 32)%Z with 4294967296%Z in *.
  rewrite int64_small by (change (2 ^ 63)%Z with 9223372036854775808%Z; lia).
  rewrite Z.gtb_ltb. apply Z.ltb_ge. lia.
Qed.

End CalibrationRuns.

(** * From calibration to scaling *)

Section Pipeline.

Import CompassSetting CompassData.

Local Open Scope R_scope.

(** X12. When zero lies between the bounds of every axis before a sequence
    of calibration calls (as after seeding with zero bounds), it still
    does afterwards; every sample of the sequence is then scaled into the
    range from -1 to 1, provided no axis is left with both bounds zero. *)
Theorem calibrate_then_scale :
  forall (h : MultiCompassHMC5883L) (samples : list CompassData.t) (clk : Clock)
         (d : CompassData.t),
    straddles (settings (compass h)) ->
    In d samples ->
    scalable (settings (compass (fst (calibrate_all h samples clk)))) ->
    straddles (settings (compass (fst (calibrate_all h samples clk)))) /\
    exists d' : CompassData.t,
      scaleData (compass (fst (calibrate_all h samples clk))) d = Some d' /\
      unit_range d' /\ same_raw d' d.
Proof.
  intros h samples clk d Hs Hin Hsc. split.
  - eapply widened_straddles; [apply calibrate_all_widened | exact Hs].
  - destruct (in_split d samples Hin) as (before & after & ->).
    assert (He : encloses
                   (settings (compass (fst (calibrate_all h (before ++ d :: after) clk)))) d).
    { rewrite calibrate_all_app, calibrate_all_cons.
      eapply widened_encloses; [apply calibrate_all_widened|].
      apply calibration_encloses. }
    destruct Hsc as (Dx & Dy & Dz). destruct He as (Ex & Ey & Ez).
    rewrite scaleData_some by assumption.
    eexists. split; [reflexivity|]. split.
    + unfold unit_range. cbn [scaledX scaledY scaledZ].
      unfold divisorX, divisorY, divisorZ in *.
      split; [|split]; apply scaled_axis_unit; assumption.
    + unfold same_raw. cbn. repeat split.
Qed.

Lemma calibrate_then_scale_from_zero :
  straddles (settings (compass (seed fresh_hmc all_zero))) /\
  In (sample 10 (-20) 30) [sample 10 (-20) 30] /\
  scalable (settings (compass (fst
     (calibrate_all (seed fresh_hmc all_zero) [sample 10 (-20) 30] (steady 0))))) /\
  straddles (settings (compass (fst
     (calibrate_all (seed fresh_hmc all_zero) [sample 10 (-20) 30] (steady 0))))) /\
  exists d' : CompassData.t,
    scaleData (compass (fst
       (calibrate_all (seed fresh_hmc all_zero) [sample 10 (-20) 30] (steady 0))))
      (sample 10 (-20) 30) = Some d' /\
    unit_range d' /\ same_raw d' (sample 10 (-20) 30).
Proof.
  assert (Hs : straddles (settings (compass (seed fresh_hmc all_zero)))).
  { unfold straddles. cbn. lra. }
  assert (Hin : In (sample 10 (-20) 30) [sample 10 (-20) 30]) by (left; reflexivity).
  assert (He : encloses (settings (compass (fst
     (calibrate_all (seed fresh_hmc all_zero) [sample 10 (-20) 30] (steady 0)))))
     (sample 10 (-20) 30)).
  { rewrite calibrate_all_cons. apply calibration_encloses. }
  assert (Hsc : scalable (settings (compass (fst
     (calibrate_all (seed fresh_hmc all_zero) [sample 10 (-20) 30] (steady 0)))))).
  { destruct He as (Ex & Ey & Ez). cbn [rawX rawY rawZ sample] in Ex, Ey, Ez.
    unfold scalable, divisorX, divisorY, divisorZ.
    split; [|split]; intro E; apply half_abs_sum_zero in E; destruct E; lra. }
  exact (conj Hs (conj Hin (conj Hsc
    (calibrate_then_scale (seed fresh_hmc all_zero) [sample 10 (-20) 30] (steady 0)
       (sample 10 (-20) 30) Hs Hin Hsc)))).
Defined.

End Pipeline.

(** * The range of the heading *)

Section HeadingRange.

Import CompassSetting CompassData.

Local Open Scope R_scope.

Ltac cases :=
  repeat match goal with
         | |- context [Rlt_dec ?a ?b] => destruct (Rlt_dec a b)
         | |- context [Rle_dec ?a ?b] => destruct (Rle_dec a b)
         | |- context [Rgt_dec ?a ?b] => destruct (Rgt_dec a b)
         end.

Lemma atan_sign t : (t <= 0 -> atan t <= 0) /\ (0 < t -> 0 < atan t).
Proof.
  split; intro Ht.
  - destruct Ht as [Ht | ->].
    + pose proof (atan_increasing t 0 Ht) as H. rewrite atan_0 in H. lra.
    + rewrite atan_0. lra.
  - pose proof (atan_increasing 0 t Ht) as H. rewrite atan_0 in H. exact H.
Qed.

Lemma quotient_sign y x :
  x < 0 -> (0 <= y -> y / x <= 0) /\ (y < 0 -> 0 < y / x).
Proof.
  intro Hx. assert (Hi : / x < 0) by (apply Rinv_lt_0_compat, Hx).
  unfold Rdiv. split; intro Hy; nra.
Qed.

(** The angle returned by [atan2f] lies in (-PI, PI]. *)
Lemma atan2_range y x : - PI < atan2 y x <= PI.
Proof.
  pose proof PI_RGT_0 as Hpi. unfold atan2.
  pose proof (atan_bound (y / x)) as Hb.
  destruct (Rlt_dec 0 x); [lra|].
  destruct (Rlt_dec x 0) as [Hx|].
  - destruct (quotient_sign y x Hx) as [Q1 Q2].
    destruct (atan_sign (y / x)) as [A1 A2].
    destruct (Rle_dec 0 y) as [Hy|Hy].
    + specialize (A1 (Q1 Hy)). lra.
    + assert (Hy' : y < 0) by lra. specialize (A2 (Q2 Hy')). lra.
  - cases; lra.
Qed.

Lemma heading_sum_range c d x y z :
  - PI + CompassSetting.heading (settings c) < heading_sum c d x y z
  <= PI + CompassSetting.heading (settings c).
Proof.
  unfold heading_sum. destruct (heading_axes d x y z) as [axis1 axis2].
  pose proof (atan2_range axis2 axis1). lra.
Qed.

Lemma heading_sum_setDeclinationAngle c d x y z a :
  - PI + a < heading_sum (setDeclinationAngle a c) d x y z <= PI + a.
Proof. apply (heading_sum_range (setDeclinationAngle a c) d x y z). Qed.

(** X14. The normalisation removes one turn only: after
    [setDeclinationAngle] with more than 5 PI, the stored heading is the
    sum less 2 PI and still above 2 PI, for every reading and every choice
    of weights; with less than -3 PI it is the sum plus 2 PI and still
    negative. *)
Theorem calculateHeading_single_turn :
  forall (c : MultiCompass) (d : CompassData.t) (x y z : Z) (t : R),
    0 < t ->
    CompassData.heading (calculateHeading (setDeclinationAngle (5 * PI + t) c) d x y z)
    > 2 * PI /\
    CompassData.heading (calculateHeading (setDeclinationAngle (5 * PI + t) c) d x y z)
    = heading_sum (setDeclinationAngle (5 * PI + t) c) d x y z - 2 * PI /\
    CompassData.heading (calculateHeading (setDeclinationAngle (- (3 * PI) - t) c) d x y z)
    < 0 /\
    CompassData.heading (calculateHeading (setDeclinationAngle (- (3 * PI) - t) c) d x y z)
    = heading_sum (setDeclinationAngle (- (3 * PI) - t) c) d x y z + 2 * PI.
Proof.
  intros c d x y z t Ht. rewrite !calculateHeading_heading.
  pose proof (heading_sum_setDeclinationAngle c d x y z (5 * PI + t)) as Hhi.
  pose proof (heading_sum_setDeclinationAngle c d x y z (- (3 * PI) - t)) as Hlo.
  pose proof PI_RGT_0 as Hpi.
  repeat split; cases; lra.
Qed.

Lemma calculateHeading_single_turn_example :
  0 < 1 /\
  CompassData.heading
    (calculateHeading (setDeclinationAngle (5 * PI + 1) (MultiCompass_new 0 0))
                      (scaled 1 0 0) 0 0 1) > 2 * PI /\
  CompassData.heading
    (calculateHeading (setDeclinationAngle (- (3 * PI) - 1) (MultiCompass_new 0 0))
                      (scaled 1 0 0) 0 0 1) < 0.
Proof.
  assert (H : 0 < 1) by lra.
  destruct (calculateHeading_single_turn (MultiCompass_new 0 0) (scaled 1 0 0) 0 0 1 1 H)
    as (A & _ & B & _).
  exact (conj H (conj A B)).
Defined.

Lemma atan2_0_0 : atan2 0 0 = 0.
Proof. unfold atan2. cases; try reflexivity; exfalso; lra. Qed.

(** X15. With all three weights zero no axis is selected: [atan2f]
    receives (0, 0), the sum is the declination whatever the reading, and
    a declination between 0 and 2 PI is stored as the heading. *)
Theorem calculateHeading_no_weight :
  forall (c : MultiCompass) (d : CompassData.t),
    0 <= CompassSetting.heading (settings c) <= 2 * PI ->
    heading_sum c d 0 0 0 = CompassSetting.heading (settings c) /\
    CompassData.heading (calculateHeading c d 0 0 0) = CompassSetting.heading (settings c).
Proof.
  intros c d Hd.
  assert (Hs : heading_sum c d 0 0 0 = CompassSetting.heading (settings c)).
  { unfold heading_sum, heading_axes. cbn [Z.eqb negb]. rewrite atan2_0_0. ring. }
  split; [exact Hs|].
  rewrite calculateHeading_heading, Hs. cases; lra.
Qed.

Lemma calculateHeading_no_weight_example :
  0 <= CompassSetting.heading (settings (MultiCompass_new 0 0)) <= 2 * PI /\
  CompassData.heading (calculateHeading (MultiCompass_new 0 0) (scaled 3 4 5) 0 0 0)
  = CompassSetting.heading (settings (MultiCompass_new 0 0)).
Proof.
  assert (H : 0 <= CompassSetting.heading (settings (MultiCompass_new 0 0)) <= 2 * PI).
  { cbn. pose proof PI_RGT_0. lra. }
  exact (conj H (proj2 (calculateHeading_no_weight (MultiCompass_new 0 0) (scaled 3 4 5) H))).
Defined.

End HeadingRange.

(** * Registers: round trips and composition *)

Section RegisterComposition.

Local Open Scope Z_scope.

(** A fact about a byte, decided by evaluating it on the 256 bytes. *)
Ltac bytewise v Hv :=
  apply Z.eqb_eq;
  match goal with
  | |- ?E = true =>
      match eval pattern v in E with
      | ?f _ => exact (byte_forall f ltac:(vm_compute; reflexivity) v Hv)
      end
  end.

Lemma getOutputRate_config_a h wire :
  getOutputRate h wire = uint8 (Z.shiftr (uint8 (Z.land (config_a h wire) 28)) 2).
Proof. reflexivity. Qed.

Lemma config_a_setOutputRate h r wire :
  config_a h (setOutputRate h r wire)
  = uint8 (Z.lor (uint8 (Z.land (config_a h wire) 227)) (Z.shiftl (OutputRate_value r) 2)).
Proof. apply setOutputRate_register. Qed.

Lemma config_a_setAveragedSamples h s wire :
  config_a h (setAveragedSamples h s wire)
  = uint8 (Z.lor (uint8 (Z.land (config_a h wire) 159)) (Z.shiftl (Samples_value s) 5)).
Proof. apply setAveragedSamples_register. Qed.

Lemma mode_register_setMode h m wire :
  mode_register h (setMode h m wire)
  = uint8 (Z.lor (uint8 (Z.land (mode_register h wire) 252)) (Mode_value m)).
Proof. apply setMode_register. Qed.

(** X17. The output rate and the number of averaged samples share
    configuration register A without disturbing each other: each field
    reads back after the other one was set, setting one leaves the other
    as it was, and the two setters commute. *)
Theorem config_a_fields_independent :
  forall (h : MultiCompassHMC5883L) (wire : TwoWire)
         (r : HMC5883L_OutputRate) (s : HMC5883L_Samples),
    getOutputRate h (setAveragedSamples h s (setOutputRate h r wire)) = OutputRate_value r /\
    samples_field h (setOutputRate h r (setAveragedSamples h s wire)) = Samples_value s /\
    getOutputRate h (setAveragedSamples h s wire) = getOutputRate h wire /\
    samples_field h (setOutputRate h r wire) = samples_field h wire /\
    config_a h (setOutputRate h r (setAveragedSamples h s wire))
    = config_a h (setAveragedSamples h s (setOutputRate h r wire)).
Proof.
  intros h wire r s.
  unfold samples_field.
  rewrite !getOutputRate_config_a.
  rewrite !config_a_setOutputRate, !config_a_setAveragedSamples, !config_a_setOutputRate.
  pose proof (register_range h HMC5883L_REGISTER_CONFIG_A wire) as Hv.
  fold (config_a h wire) in Hv.
  set (v := config_a h wire) in *. clearbody v.
  split; [|split; [|split; [|split]]]; destruct r, s; bytewise v Hv.
Qed.

(** X18. The last write wins: setting a field twice leaves the register as
    setting it once with the second value, for the mode, the output rate,
    the averaged samples and the field range. *)
Theorem setters_last_write_wins :
  forall (h : MultiCompassHMC5883L) (wire : TwoWire)
         (m1 m2 : HMC5883L_Mode) (r1 r2 : HMC5883L_OutputRate)
         (s1 s2 : HMC5883L_Samples) (f1 f2 : HMC5883L_FieldRange),
    mode_register h (setMode h m2 (setMode h m1 wire)) = mode_register h (setMode h m2 wire) /\
    config_a h (setOutputRate h r2 (setOutputRate h r1 wire))
    = config_a h (setOutputRate h r2 wire) /\
    config_a h (setAveragedSamples h s2 (setAveragedSamples h s1 wire))
    = config_a h (setAveragedSamples h s2 wire) /\
    config_b h (setFieldRange h f2 (setFieldRange h f1 wire))
    = config_b h (setFieldRange h f2 wire).
Proof.
  intros h wire m1 m2 r1 r2 s1 s2 f1 f2.
  rewrite !mode_register_setMode, !config_a_setOutputRate, !config_a_setAveragedSamples.
  pose proof (register_range h HMC5883L_REGISTER_CONFIG_A wire) as Hv.
  pose proof (register_range h HMC5883L_REGISTER_MODE wire) as Hw.
  fold (config_a h wire) in Hv. fold (mode_register h wire) in Hw.
  set (v := config_a h wire) in *. clearbody v.
  set (w := mode_register h wire) in *. clearbody w.
  split; [|split; [|split]].
  - destruct m1, m2; bytewise w Hw.
  - destruct r1, r2; bytewise v Hv.
  - destruct s1, s2; bytewise v Hv.
  - unfold config_b. rewrite !setFieldRange_register. reflexivity.
Qed.

Lemma register_other h reg reg' v wire :
  uint8 reg' <> uint8 reg ->
  register h reg' (writeByte (compass h) reg v wire) = register h reg' wire.
Proof.
  intro Hr. unfold register, readByte.
  rewrite writeByte_frame by (right; exact Hr). reflexivity.
Qed.

(** X19. Each setter writes one register of the compass and nothing else:
    the mode is not changed by setting the rate, the samples or the field
    range, the rate is not changed by setting the mode or the field range,
    the field range read by [getFieldRange] is not changed by the three
    other setters, and no setter changes a register of a peripheral at
    another bus address. The device as constructed uses address 0x1F. *)
Theorem setters_frame :
  forall (ts a0 : Z) (h : MultiCompassHMC5883L) (wire : TwoWire) (m : HMC5883L_Mode)
         (r : HMC5883L_OutputRate) (s : HMC5883L_Samples) (f : HMC5883L_FieldRange)
         (a reg : Z),
    a <> adress (compass h) ->
    getMode h (setOutputRate h r wire) = getMode h wire /\
    getMode h (setAveragedSamples h s wire) = getMode h wire /\
    getMode h (setFieldRange h f wire) = getMode h wire /\
    getOutputRate h (setMode h m wire) = getOutputRate h wire /\
    getOutputRate h (setFieldRange h f wire) = getOutputRate h wire /\
    getFieldRange h (setMode h m wire) = getFieldRange h wire /\
    getFieldRange h (setOutputRate h r wire) = getFieldRange h wire /\
    getFieldRange h (setAveragedSamples h s wire) = getFieldRange h wire /\
    setMode h m wire a reg = wire a reg /\
    setOutputRate h r wire a reg = wire a reg /\
    setAveragedSamples h s wire a reg = wire a reg /\
    setFieldRange h f wire a reg = wire a reg /\
    adress (compass (MultiCompassHMC5883L_new ts a0)) = 0x1F.
Proof.
  intros ts a0 h wire m r s f a reg Ha.
  rewrite !getMode_register, !getOutputRate_register, !getFieldRange_register.
  unfold setMode, setOutputRate, setAveragedSamples, setFieldRange.
  rewrite !register_other by discriminate.
  rewrite !writeByte_frame by (left; exact Ha).
  repeat split.
Qed.

Lemma setters_frame_other_address :
  0 <> adress (compass fresh_hmc) /\
  getMode fresh_hmc (setOutputRate fresh_hmc HMC5883L_OUTPUTRATE_75HZ
                       (bus_with fresh_hmc HMC5883L_REGISTER_MODE 1))
  = getMode fresh_hmc (bus_with fresh_hmc HMC5883L_REGISTER_MODE 1) /\
  setFieldRange fresh_hmc HMC5883L_FIELDRANGE_8_1GA
    (bus_with fresh_hmc HMC5883L_REGISTER_MODE 1) 0 HMC5883L_REGISTER_CONFIG_B
  = bus_with fresh_hmc HMC5883L_REGISTER_MODE 1 0 HMC5883L_REGISTER_CONFIG_B.
Proof.
  assert (H : 0 <> adress (compass fresh_hmc)) by discriminate.
  destruct (setters_frame 0 0 fresh_hmc (bus_with fresh_hmc HMC5883L_REGISTER_MODE 1)
              HMC5883L_MODE_IDLE HMC5883L_OUTPUTRATE_75HZ HMC5883L_SAMPLES_2
              HMC5883L_FIELDRANGE_8_1GA 0 HMC5883L_REGISTER_CONFIG_B H)
    as (A & _ & _ & _ & _ & _ & _ & _ & _ & _ & _ & B & _).
  exact (conj H (conj A B)).
Defined.

End RegisterComposition.

(** * Further instances *)

Section FurtherInstances.

Import CompassSetting CompassData.

Local Open Scope R_scope.

Lemma symmetric_500_scalable :
  scalable (settings (setCalibration symmetric_500 (MultiCompass_new 0 0))).
Proof.
  unfold scalable, divisorX, divisorY, divisorZ. cbn.
  repeat split; intro E; apply half_abs_sum_zero in E; destruct E; lra.
Qed.

Lemma scaleData_unit_range_symmetric :
  scalable (settings (setCalibration symmetric_500 (MultiCompass_new 0 0))) /\
  encloses (settings (setCalibration symmetric_500 (MultiCompass_new 0 0)))
           (sample 250 (-250) 0) /\
  exists d' : CompassData.t,
    scaleData (setCalibration symmetric_500 (MultiCompass_new 0 0)) (sample 250 (-250) 0)
    = Some d' /\ unit_range d' /\ same_raw d' (sample 250 (-250) 0).
Proof.
  assert (He : encloses (settings (setCalibration symmetric_500 (MultiCompass_new 0 0)))
                        (sample 250 (-250) 0)).
  { unfold encloses. cbn. lra. }
  exact (conj symmetric_500_scalable (conj He
    (scaleData_unit_range (setCalibration symmetric_500 (MultiCompass_new 0 0))
       (sample 250 (-250) 0) symmetric_500_scalable He))).
Defined.

Lemma scaleData_endpoints_symmetric :
  straddles (settings (setCalibration symmetric_500 (MultiCompass_new 0 0))) /\
  scalable (settings (setCalibration symmetric_500 (MultiCompass_new 0 0))) /\
  scaleData (setCalibration symmetric_500 (MultiCompass_new 0 0)) (sample 500 500 500)
  = Some (CompassData.mk 500 500 500 1 1 1 0) /\
  scaleData (setCalibration symmetric_500 (MultiCompass_new 0 0))
            (sample (-500) (-500) (-500))
  = Some (CompassData.mk (-500) (-500) (-500) (-1) (-1) (-1) 0).
Proof.
  assert (Hs : straddles (settings (setCalibration symmetric_500 (MultiCompass_new 0 0)))).
  { unfold straddles. cbn. lra. }
  destruct (scaleData_endpoints (setCalibration symmetric_500 (MultiCompass_new 0 0))
              Hs symmetric_500_scalable) as (_ & _ & _ & A & B).
  exact (conj Hs (conj symmetric_500_scalable (conj A B))).
Defined.

Lemma scaleData_same_sign_bounds_example :
  0 < minX (settings (setCalibration (CompassSetting.mk 100 100 100 300 300 300 0 0)
                                     (MultiCompass_new 0 0)))
  <= maxX (settings (setCalibration (CompassSetting.mk 100 100 100 300 300 300 0 0)
                                    (MultiCompass_new 0 0))) /\
  scalable (settings (setCalibration (CompassSetting.mk 100 100 100 300 300 300 0 0)
                                     (MultiCompass_new 0 0))) /\
  exists d' : CompassData.t,
    scaleData (setCalibration (CompassSetting.mk 100 100 100 300 300 300 0 0)
                              (MultiCompass_new 0 0)) (sample 300 200 200) = Some d' /\
    0 <= scaledX d' < 1.
Proof.
  assert (Hb : 0 < minX (settings (setCalibration
                   (CompassSetting.mk 100 100 100 300 300 300 0 0) (MultiCompass_new 0 0)))
               <= maxX (settings (setCalibration
                   (CompassSetting.mk 100 100 100 300 300 300 0 0) (MultiCompass_new 0 0)))).
  { cbn. lra. }
  assert (Hsc : scalable (settings (setCalibration
                   (CompassSetting.mk 100 100 100 300 300 300 0 0) (MultiCompass_new 0 0)))).
  { unfold scalable, divisorX, divisorY, divisorZ. cbn.
    repeat split; intro E; apply half_abs_sum_zero in E; destruct E; lra. }
  destruct (scaleData_same_sign_bounds
              (setCalibration (CompassSetting.mk 100 100 100 300 300 300 0 0)
                              (MultiCompass_new 0 0))
              (sample 300 200 200) Hb Hsc eq_refl) as (d' & E & _ & _ & R).
  exact (conj Hb (conj Hsc (ex_intro _ d' (conj E R)))).
Defined.

Lemma new_extreme_not_complete_first_sample :
  slow_clock (calibrationPeriod fresh_hmc) (steady 5000) /\
  new_extreme (settings (compass fresh_hmc)) (sample 0 0 0) /\
  complete fresh_hmc (sample 0 0 0) (steady 5000) = false.
Proof.
  assert (Hc : slow_clock (calibrationPeriod fresh_hmc) (steady 5000)).
  { intro k. cbn. lia. }
  assert (Hn : new_extreme (settings (compass fresh_hmc)) (sample 0 0 0)).
  { unfold new_extreme. cbn. left. lra. }
  exact (conj Hc (conj Hn
    (new_extreme_not_complete fresh_hmc (sample 0 0 0) (steady 5000) Hc Hn))).
Defined.

End FurtherInstances.

(** * The rounding of the heading *)

Section HeadingRounding.

Local Open Scope Z_scope.

(** The constants, as they are stored: PI is 0x400921FB54442D18 as a
    64-bit [double] and 0x40490FDB where [double] has 32 bits. *)
Lemma PI_const_bits :
  PI_const double64 = S754_finite false 0x1921FB54442D18 (-51) /\
  PI_const double32 = S754_finite false 0xC90FDB (-22) /\
  TWO_PI double64 = S754_finite false 0x1921FB54442D18 (-50) /\
  TWO_PI double32 = float_two_pi.
Proof. vm_compute. repeat split. Qed.









End HeadingRounding.
